(** * NEST kernel: the virtual process manager ([nestkernel/vp_manager.cpp])

    A shallow embedding of [nest::VPManager] and a verification of the
    properties its specification states about the thread / process /
    virtual-process arithmetic, the reconfiguration guards and the
    environment hint [OMP_NUM_THREADS].

    Conventions.
    - [size_t], [long] and [int] values are integers [Z]; every C++
      conversion between them is written out ([to_size_t], [to_long],
      [to_int]).
    - A [DictionaryDatum] is a finite map from names to [long] tokens.
    - Effects (log lines, calls into the OpenMP runtime, the broadcast of a
      new thread count) are recorded in order in an event trace; C++
      exceptions and a failed [assert] are outcomes of a computation. *)

From Stdlib Require Import ZArith Lia Ascii String.
From stdpp Require Import base option list strings gmap.

Local Open Scope Z_scope.

(** ** Machine integers *)

Definition SIZE_MODULUS : Z := 2 ^ 64.
Definition LONG_MAX : Z := 2 ^ 63 - 1.
Definition LONG_MIN : Z := - 2 ^ 63.
Definition INT_MODULUS : Z := 2 ^ 32.

(** Conversion to [size_t] (64-bit unsigned): reduction modulo 2^64. *)
Definition to_size_t (z : Z) : Z := z mod SIZE_MODULUS.

(** Conversion to [long] (64-bit two's complement). *)
Definition to_long (z : Z) : Z :=
  let r := z mod SIZE_MODULUS in
  if r <=? LONG_MAX then r else r - SIZE_MODULUS.

(** Conversion to [int] (32-bit two's complement). *)
Definition to_int (z : Z) : Z :=
  let r := z mod INT_MODULUS in
  if r <? 2 ^ 31 then r else r - INT_MODULUS.

Definition is_size_t (z : Z) : Prop := 0 <= z < SIZE_MODULUS.
Definition is_long (z : Z) : Prop := LONG_MIN <= z <= LONG_MAX.

(** ** [std::atoi]

    [atoi( s )] is [(int) strtol( s, nullptr, 10 )]: leading white space is
    skipped, an optional sign is read, then decimal digits up to the first
    character that is not one.  [strtol] saturates a value outside [long] at
    [LONG_MIN] or [LONG_MAX]; the [long] is then converted to [int]. *)

Definition isspace (c : ascii) : bool :=
  let n := nat_of_ascii c in
  (n =? 32)%nat || ((9 <=? n)%nat && (n <=? 13)%nat).

Definition isdigit (c : ascii) : bool :=
  let n := nat_of_ascii c in
  (48 <=? n)%nat && (n <=? 57)%nat.

Definition digit_value (c : ascii) : Z := Z.of_nat (nat_of_ascii c) - 48.

Fixpoint skip_spaces (s : string) : string :=
  match s with
  | String c s' => if isspace c then skip_spaces s' else s
  | EmptyString => s
  end.

Fixpoint read_digits (acc : Z) (s : string) : Z :=
  match s with
  | String c s' => if isdigit c then read_digits (10 * acc + digit_value c) s' else acc
  | EmptyString => acc
  end.

Definition saturate_long (z : Z) : Z := Z.max LONG_MIN (Z.min LONG_MAX z).

Definition strtol (s : string) : Z :=
  match skip_spaces s with
  | String "-" s' => saturate_long (- read_digits 0 s')
  | String "+" s' => saturate_long (read_digits 0 s')
  | s' => saturate_long (read_digits 0 s')
  end.

Definition atoi (s : string) : Z := to_int (strtol s).

(** ** Dictionaries

    [DictionaryDatum], [updateValue], [def] ([sli/dictutils.h]) and the names
    ([nestkernel/nest_names.h]) are not among the sources.  The type
    arguments written at the calls ([updateValue< long >] into a [size_t]
    variable, [def< long >] of a [size_t]) give the conversions. *)

(** Modelled from the spec: [DictionaryDatum] is missing.  The manager
    "exposes to the configuration-status surface two read/write integer
    fields (thread count, total virtual-process count) under fixed, stable
    names": a status dictionary maps names to [long] tokens. *)
Abbreviation Dictionary := (gmap string Z).

(** Modelled from the spec: the namespace [names] is missing.  The two
    "fixed, stable names" are spelled as the identifiers and the
    [BadProperty] message of the source spell them. *)
Module names.
Definition local_num_threads : string := "local_num_threads".
Definition total_num_virtual_procs : string := "total_num_virtual_procs".
End names.

(** Modelled from the spec: [updateValue] is missing.  A request "arrives
    with optional new values": in [updateValue< long >( d, n, value )], with
    [value] a [size_t] variable, when the dictionary has the entry, its
    [long] is assigned to [value] (converted to [size_t]) and [true] is
    returned; otherwise [value] is left alone and [false] is returned.  The
    pair is (return value, [value] afterwards). *)
Definition updateValue (d : Dictionary) (n : string) (value : Z) : bool * Z :=
  match d !! n with
  | Some t => (true, to_size_t t)
  | None => (false, value)
  end.

(** Modelled from the spec: [def] is missing.  The status query "returns the
    current thread_count and the derived virtual-process count":
    [def< long >( d, n, value )] stores [value], converted to [long], under
    the name [n]. *)
Definition def (d : Dictionary) (n : string) (value : Z) : Dictionary :=
  <[ n := to_long value ]> d.

(** ** The kernel as this manager sees it *)

(** Modelled from the spec: the other managers ([kernel_manager.h] and the
    managers it holds) are missing.  The record has one field per query the
    source makes through [kernel()]: the process count ("integer ≥ 1"), the
    node count, "a single boolean each" for delay extrema, simulation
    progress and model defaults, and "is structural plasticity currently
    enabled"; and the process environment read by [std::getenv].  None of it
    is written by the functions of this file. *)
Record Kernel := {
  mpi_manager_get_num_processes : Z;
  node_manager_size : Z;
  connection_manager_get_user_set_delay_extrema : bool;
  simulation_manager_has_been_simulated : bool;
  model_manager_are_model_defaults_modified : bool;
  sp_manager_is_structural_plasticity_enabled : bool;
  environ : gmap string string
}.

(** The process count is a positive [size_t] and the node count a [size_t]. *)
Definition Kernel_ok (k : Kernel) : Prop :=
  1 <= mpi_manager_get_num_processes k < SIZE_MODULUS /\
  is_size_t (node_manager_size k).

(** ** State, effects and outcomes *)

Record VPManager := {
  force_singlethreading_ : bool;
  n_threads_ : Z
}.

Inductive severity := M_INFO | M_WARNING.

Inductive event :=
| LOG (s : severity) (function message : string)
| omp_set_dynamic (dynamic : bool)
| omp_set_num_threads (n : Z)
| threads_changed (n : Z).

Record World := {
  vp_manager : VPManager;
  events : list event
}.

Inductive exception :=
| BadProperty (msg : string)
| KernelException (msg : string).

Inductive outcome (A : Type) :=
| Returned (a : A)
| Thrown (e : exception)
| Aborted.
Arguments Returned {A} a.
Arguments Thrown {A} e.
Arguments Aborted {A}.

(** A computation runs on a world and ends in an outcome and a world; what was
    written before a [throw] stays written. *)
Definition M (A : Type) : Type := World -> outcome A * World.

Definition ret {A} (a : A) : M A := fun w => (Returned a, w).

Definition bind {A B} (m : M A) (f : A -> M B) : M B :=
  fun w =>
    match m w with
    | (Returned a, w') => f a w'
    | (Thrown e, w') => (Thrown e, w')
    | (Aborted, w') => (Aborted, w')
    end.

Notation "x <- m ;; f" := (bind m (fun x => f))
  (at level 100, m at next level, right associativity).
Notation "m ;; f" := (bind m (fun _ => f))
  (at level 100, right associativity).

Definition throw {A} (e : exception) : M A := fun w => (Thrown e, w).

Definition assert (b : bool) : M unit :=
  fun w => if b then (Returned tt, w) else (Aborted, w).

Definition this : M VPManager := fun w => (Returned (vp_manager w), w).

Definition emit (e : event) : M unit :=
  fun w => (Returned tt, {| vp_manager := vp_manager w; events := events w ++ [e] |}).

Definition store_n_threads_ (n : Z) : M unit :=
  fun w =>
    (Returned tt,
     {| vp_manager := {| force_singlethreading_ := force_singlethreading_ (vp_manager w);
                         n_threads_ := n |};
        events := events w |}).

Definition when (b : bool) (m : M unit) : M unit := if b then m else ret tt.

(** ** The manager *)

Section VPManager.

(** Whether the translation unit is compiled with [_OPENMP] defined. *)
Variable OPENMP : bool.

(** [VPManager::VPManager()] *)
Definition VPManager_ctor : VPManager :=
  {| force_singlethreading_ := if OPENMP then false else true;
     n_threads_ := 1 |}.

(** Modelled from the spec: the accessor [get_num_threads] is declared in
    [vp_manager.h] and defined in [vp_manager_impl.h], which are missing.
    "It holds the authoritative thread count": the stored field. *)
Definition get_num_threads (vp : VPManager) : Z := n_threads_ vp.

(** Modelled from the spec: the accessor [get_num_virtual_processes]
    ([vp_manager_impl.h]) is missing.  The virtual process count is
    "derived ... [thread_count × process_count].  Never stored independently
    of thread_count; always recomputed".  [set_status] keeps both counts in
    [size_t] locals, so the product is the [size_t] product. *)
Definition get_num_virtual_processes (k : Kernel) (vp : VPManager) : Z :=
  to_size_t (get_num_threads vp * mpi_manager_get_num_processes k).

(** [VPManager::get_OMP_NUM_THREADS]: the [int] of [atoi] is returned as
    [size_t]. *)
Definition get_OMP_NUM_THREADS (k : Kernel) : Z :=
  match environ k !! "OMP_NUM_THREADS"%string with
  | Some omp_num_threads => to_size_t (atoi omp_num_threads)
  | None => 0
  end.

Definition OMP_NUM_THREADS_ignored : string :=
  ("OMP_NUM_THREADS is set in your environment, but NEST ignores it." +:+ String "010" EmptyString
   +:+ "For details, see the Guide to parallel computing in the NEST Documentation.")%string.

(** [VPManager::set_num_threads]; [omp_set_num_threads] takes an [int]. *)
Definition set_num_threads (k : Kernel) (n_threads : Z) : M unit :=
  assert (negb (sp_manager_is_structural_plasticity_enabled k && (1 <? n_threads))) ;;
  store_n_threads_ n_threads ;;
  when OPENMP (emit (omp_set_num_threads (to_int n_threads))).

(** [VPManager::initialize] *)
Definition initialize (k : Kernel) (reset_kernel : bool) : M unit :=
  if negb reset_kernel then ret tt
  else
    when OPENMP (emit (omp_set_dynamic false)) ;;
    when (1 <? get_OMP_NUM_THREADS k)
      (emit (LOG M_INFO "VPManager::initialize()" OMP_NUM_THREADS_ignored)) ;;
    set_num_threads k 1.

(** [VPManager::finalize] *)
Definition finalize (_ : bool) : M unit := ret tt.

(** Modelled from the spec: [KernelManager::change_number_of_threads]
    ([kernel_manager.cpp]) is missing.  "Commit the new
    thread_count, then instruct the thread-parallel runtime to resize to
    exactly that many threads per process, and propagate the new decomposition
    to every other subsystem that caches per-thread structures (treated as an
    external broadcast, not detailed here)"; the commit and the resize are
    [set_num_threads] ("used internally by both the public reconfiguration path
    and by initialization/reset"). *)
Definition change_number_of_threads (k : Kernel) (new_num_threads : Z) : M unit :=
  set_num_threads k new_num_threads ;;
  emit (threads_changed new_num_threads).

Definition BadProperty_msg : string :=
  ("Requested total_num_virtual_procs is incompatible with the number of processes and threads."
   +:+ "It must be an integer multiple of num_processes and equal to "
   +:+ "local_num_threads * num_processes. Value unchanged.")%string.

(** [VPManager::set_status], lines 102-124: the requested values are read
    and, when a virtual process count is given, checked against the process
    count.  The result is the exception thrown or the locals
    [(n_threads, n_vps)] as they stand at line 126. *)
Definition set_status_requested (k : Kernel) (d : Dictionary) (vp : VPManager)
  : exception + Z * Z :=
  let n_threads := get_num_threads vp in
  let n_vps := get_num_virtual_processes k vp in
  let '(n_threads_updated, n_threads) := updateValue d names.local_num_threads n_threads in
  let '(n_vps_updated, n_vps) := updateValue d names.total_num_virtual_procs n_vps in
  if n_vps_updated then
    let n_threads :=
      if negb n_threads_updated then n_vps / mpi_manager_get_num_processes k else n_threads in
    let n_threads_conflict := negb (n_vps / mpi_manager_get_num_processes k =? n_threads) in
    let n_procs_conflict := negb (n_vps mod mpi_manager_get_num_processes k =? 0) in
    if n_threads_conflict || n_procs_conflict
    then inl (BadProperty BadProperty_msg)
    else inr (n_threads, n_vps)
  else inr (n_threads, n_vps).

(** [push_back] on the vector of error strings. *)
Definition push_back_if (b : bool) (error : string) (errors : list string) : list string :=
  if b then errors ++ [error] else errors.

(** [VPManager::set_status], lines 132-156: the vector [errors]. *)
Definition set_status_errors (k : Kernel) (vp : VPManager) (n_threads : Z) : list string :=
  let errors := [] in
  let errors := push_back_if (0 <? node_manager_size k) "Nodes exist" errors in
  let errors := push_back_if (connection_manager_get_user_set_delay_extrema k)
                  "Delay extrema have been set" errors in
  let errors := push_back_if (simulation_manager_has_been_simulated k)
                  "Network has been simulated" errors in
  let errors := push_back_if (model_manager_are_model_defaults_modified k)
                  "Model defaults were modified" errors in
  let errors := push_back_if (sp_manager_is_structural_plasticity_enabled k && (1 <? n_threads))
                  "Structural plasticity enabled: multithreading cannot be enabled" errors in
  let errors := push_back_if (force_singlethreading_ vp && (1 <? n_threads))
                  "This installation of NEST does not support multiple threads" errors in
  errors.

(** Lines 160-164: the message of the [KernelException]. *)
Definition set_status_msg (errors : list string) : string :=
  fold_left (fun msg error => msg +:+ (" " +:+ error +:+ "."))%string errors
    "Number of threads unchanged. Error conditions:"%string.

Definition is_nil {A} (l : list A) : bool :=
  match l with [] => true | _ => false end.

(** [VPManager::set_status] *)
Definition set_status (k : Kernel) (d : Dictionary) : M unit :=
  vp <- this ;;
  match set_status_requested k d vp with
  | inl e => throw e
  | inr (n_threads, n_vps) =>
    (* We only want to act if new values differ from the old *)
    let n_threads_updated := negb (n_threads =? get_num_threads vp) in
    let n_vps_updated := negb (n_vps =? get_num_virtual_processes k vp) in
    if n_threads_updated || n_vps_updated then
      let errors := set_status_errors k vp n_threads in
      if negb (is_nil errors) then throw (KernelException (set_status_msg errors))
      else
        when ((0 <? get_OMP_NUM_THREADS k) && negb (get_OMP_NUM_THREADS k =? n_threads))
          (emit (LOG M_WARNING "VPManager::set_status()" OMP_NUM_THREADS_ignored)) ;;
        change_number_of_threads k n_threads
    else ret tt
  end.

(** [VPManager::get_status]: the dictionary is an in/out argument. *)
Definition get_status (k : Kernel) (d : Dictionary) : M Dictionary :=
  vp <- this ;;
  let d := def d names.local_num_threads (get_num_threads vp) in
  let d := def d names.total_num_virtual_procs (get_num_virtual_processes k vp) in
  ret d.

(** ** Reachable states

    The manager is constructed once; afterwards the kernel calls
    [initialize], [finalize], [set_status] and [get_status], each time with
    whatever the other managers and the environment then report. *)
Inductive call :=
| call_initialize (k : Kernel) (reset_kernel : bool)
| call_finalize (reset_kernel : bool)
| call_set_status (k : Kernel) (d : Dictionary)
| call_get_status (k : Kernel) (d : Dictionary).

Definition run (c : call) (w : World) : World :=
  match c with
  | call_initialize k reset_kernel => snd (initialize k reset_kernel w)
  | call_finalize reset_kernel => snd (finalize reset_kernel w)
  | call_set_status k d => snd (set_status k d w)
  | call_get_status k d => snd (get_status k d w)
  end.

Definition initial_world : World := {| vp_manager := VPManager_ctor; events := [] |}.

(** The kernel of a call. *)
Definition call_kernel (c : call) : option Kernel :=
  match c with
  | call_initialize k _ | call_set_status k _ | call_get_status k _ => Some k
  | call_finalize _ => None
  end.

(** A call is well-formed when the kernel it runs in is. *)
Definition call_ok (c : call) : Prop :=
  match call_kernel c with Some k => Kernel_ok k | None => True end.

(** States reached from the constructed manager by calls that satisfy [ok]. *)
Inductive reachable_by (ok : call -> Prop) : World -> Prop :=
| reachable_ctor : reachable_by ok initial_world
| reachable_call c w : ok c -> reachable_by ok w -> reachable_by ok (run c w).

Definition reachable : World -> Prop := reachable_by call_ok.

(** A request that asks for zero threads, or for zero virtual processes
    without naming a thread count. *)
Definition requests_zero (d : Dictionary) : Prop :=
  d !! names.local_num_threads = Some 0 \/
  (d !! names.local_num_threads = None /\ d !! names.total_num_virtual_procs = Some 0).

(** The two entries [set_status] reads are [long] tokens. *)
Definition long_request (d : Dictionary) : Prop :=
  (forall t, d !! names.local_num_threads = Some t -> is_long t) /\
  (forall v, d !! names.total_num_virtual_procs = Some v -> is_long v).

Definition call_requests_no_zero (c : call) : Prop :=
  call_ok c /\
  match c with
  | call_set_status _ d => long_request d /\ ~ requests_zero d
  | _ => True
  end.

(** The world a successful change to [n_threads] leaves behind: the stored
    count, and the trace extended by the warning about the ignored hint (when
    it applies), the call into the OpenMP runtime (when compiled in) and the
    broadcast. *)
Definition hint_warning (k : Kernel) (n_threads : Z) : list event :=
  if (0 <? get_OMP_NUM_THREADS k) && negb (get_OMP_NUM_THREADS k =? n_threads)
  then [LOG M_WARNING "VPManager::set_status()" OMP_NUM_THREADS_ignored]
  else [].

Definition omp_calls (es : list event) : list event := if OPENMP then es else [].

Definition changed_world (k : Kernel) (n_threads : Z) (w : World) : World :=
  {| vp_manager := {| force_singlethreading_ := force_singlethreading_ (vp_manager w);
                      n_threads_ := n_threads |};
     events := events w ++ hint_warning k n_threads
                 ++ omp_calls [omp_set_num_threads (to_int n_threads)]
                 ++ [threads_changed n_threads] |}.

(** The same kernel in another process environment. *)
Definition with_environ (k : Kernel) (env : gmap string string) : Kernel :=
  {| mpi_manager_get_num_processes := mpi_manager_get_num_processes k;
     node_manager_size := node_manager_size k;
     connection_manager_get_user_set_delay_extrema :=
       connection_manager_get_user_set_delay_extrema k;
     simulation_manager_has_been_simulated := simulation_manager_has_been_simulated k;
     model_manager_are_model_defaults_modified := model_manager_are_model_defaults_modified k;
     sp_manager_is_structural_plasticity_enabled :=
       sp_manager_is_structural_plasticity_enabled k;
     environ := env |}.

(** ** The guards of the reconfiguration, one by one *)

Inductive guard :=
| guard_nodes_exist
| guard_delay_extrema
| guard_simulated
| guard_model_defaults
| guard_structural_plasticity
| guard_singlethreading.

Definition guard_fails (k : Kernel) (vp : VPManager) (n_threads : Z) (g : guard) : bool :=
  match g with
  | guard_nodes_exist => 0 <? node_manager_size k
  | guard_delay_extrema => connection_manager_get_user_set_delay_extrema k
  | guard_simulated => simulation_manager_has_been_simulated k
  | guard_model_defaults => model_manager_are_model_defaults_modified k
  | guard_structural_plasticity =>
      sp_manager_is_structural_plasticity_enabled k && (1 <? n_threads)
  | guard_singlethreading => force_singlethreading_ vp && (1 <? n_threads)
  end.

Definition guard_reason (g : guard) : string :=
  match g with
  | guard_nodes_exist => "Nodes exist"
  | guard_delay_extrema => "Delay extrema have been set"
  | guard_simulated => "Network has been simulated"
  | guard_model_defaults => "Model defaults were modified"
  | guard_structural_plasticity =>
      "Structural plasticity enabled: multithreading cannot be enabled"
  | guard_singlethreading => "This installation of NEST does not support multiple threads"
  end.

Definition all_guards : list guard :=
  [guard_nodes_exist; guard_delay_extrema; guard_simulated; guard_model_defaults;
   guard_structural_plasticity; guard_singlethreading].

(** [sub] occurs in [s]. *)
Definition contains (s sub : string) : Prop :=
  exists pre post : string, s = (pre +:+ sub +:+ post)%string.

(** Whether a trace has a log line. *)
Definition is_LOG (e : event) : bool :=
  match e with LOG _ _ _ => true | _ => false end.


(** A kernel right after a reset, with [P] processes and the process
    environment [env]: no nodes, nothing simulated, nothing modified,
    structural plasticity off. *)
Definition pristine_kernel (P : Z) (env : gmap string string) : Kernel :=
  {| mpi_manager_get_num_processes := P;
     node_manager_size := 0;
     connection_manager_get_user_set_delay_extrema := false;
     simulation_manager_has_been_simulated := false;
     model_manager_are_model_defaults_modified := false;
     sp_manager_is_structural_plasticity_enabled := false;
     environ := env |}.

(** A kernel with [P] processes in which nodes exist and model defaults were
    modified. *)
Definition busy_kernel (P : Z) : Kernel :=
  {| mpi_manager_get_num_processes := P;
     node_manager_size := 5;
     connection_manager_get_user_set_delay_extrema := false;
     simulation_manager_has_been_simulated := false;
     model_manager_are_model_defaults_modified := true;
     sp_manager_is_structural_plasticity_enabled := false;
     environ := ∅ |}.

(** An otherwise pristine kernel with structural plasticity enabled. *)
Definition plastic_kernel (P : Z) : Kernel :=
  {| mpi_manager_get_num_processes := P;
     node_manager_size := 0;
     connection_manager_get_user_set_delay_extrema := false;
     simulation_manager_has_been_simulated := false;
     model_manager_are_model_defaults_modified := false;
     sp_manager_is_structural_plasticity_enabled := true;
     environ := ∅ |}.

(** The log lines of a trace, in order. *)
Definition log_lines (es : list event) : list event := List.filter is_LOG es.

(** The stored count is a [size_t] and the lockout flag is the one the
    constructor sets. *)
Definition well_formed (w : World) : Prop :=
  is_size_t (n_threads_ (vp_manager w)) /\
  force_singlethreading_ (vp_manager w) = negb OPENMP.

(** ** Integer conversions *)

Lemma to_size_t_range z : is_size_t (to_size_t z).
Proof. unfold is_size_t, to_size_t, SIZE_MODULUS. apply Z.mod_pos_bound. lia. Qed.

Lemma to_size_t_id z : is_size_t z -> to_size_t z = z.
Proof. unfold is_size_t, to_size_t. intros H. now apply Z.mod_small. Qed.


Lemma to_size_t_to_long z : to_size_t (to_long z) = to_size_t z.
Proof.
  unfold to_long, to_size_t. cbv zeta.
  destruct (z mod SIZE_MODULUS <=? LONG_MAX).
  - apply Z.mod_mod. unfold SIZE_MODULUS. lia.
  - replace (z mod SIZE_MODULUS - SIZE_MODULUS)
      with (z mod SIZE_MODULUS + (-1) * SIZE_MODULUS) by lia.
    rewrite Z.mod_add by (unfold SIZE_MODULUS; lia).
    apply Z.mod_mod. unfold SIZE_MODULUS. lia.
Qed.

Lemma to_long_id z : 0 <= z <= LONG_MAX -> to_long z = z.
Proof.
  intros H. unfold to_long. cbv zeta.
  rewrite Z.mod_small by (unfold LONG_MAX, SIZE_MODULUS in *; lia).
  destruct (Z.leb_spec z LONG_MAX); lia.
Qed.

Lemma to_size_t_long_zero z : is_long z -> to_size_t z = 0 -> z = 0.
Proof.
  unfold is_long, LONG_MIN, LONG_MAX, to_size_t, SIZE_MODULUS. intros Hz H.
  apply Z.mod_divide in H; [|lia]. destruct H as [q Hq]. lia.
Qed.

(** ** How the calls run *)

Lemma world_eta w : {| vp_manager := vp_manager w; events := events w |} = w.
Proof. now destruct w. Qed.

Lemma set_num_threads_run k n w :
  set_num_threads k n w =
  if sp_manager_is_structural_plasticity_enabled k && (1 <? n)
  then (Aborted, w)
  else (Returned tt,
        {| vp_manager := {| force_singlethreading_ := force_singlethreading_ (vp_manager w);
                            n_threads_ := n |};
           events := events w ++ omp_calls [omp_set_num_threads (to_int n)] |}).
Proof.
  unfold set_num_threads, bind, assert, store_n_threads_, when, emit, ret, omp_calls.
  destruct (sp_manager_is_structural_plasticity_enabled k && (1 <? n)); simpl.
  - reflexivity.
  - destruct OPENMP; simpl; [reflexivity | now rewrite app_nil_r].
Qed.

Lemma initialize_run k w :
  initialize k true w =
  (Returned tt,
   {| vp_manager := {| force_singlethreading_ := force_singlethreading_ (vp_manager w);
                       n_threads_ := 1 |};
      events := events w ++ omp_calls [omp_set_dynamic false]
                  ++ (if 1 <? get_OMP_NUM_THREADS k
                      then [LOG M_INFO "VPManager::initialize()" OMP_NUM_THREADS_ignored]
                      else [])
                  ++ omp_calls [omp_set_num_threads 1] |}).
Proof.
  unfold initialize. cbn [negb]. unfold bind at 1 2.
  assert (Hpre : forall (b : bool) e w0,
             when b (emit e) w0 =
             (Returned tt, {| vp_manager := vp_manager w0;
                              events := events w0 ++ (if b then [e] else []) |})).
  { intros [] e w0; unfold when, emit, ret; simpl;
      [reflexivity | now rewrite app_nil_r, world_eta]. }
  rewrite !Hpre. rewrite set_num_threads_run.
  rewrite andb_false_r. cbn [vp_manager events]. unfold omp_calls.
  do 2 f_equal. rewrite <- !app_assoc.
  destruct OPENMP, (1 <? get_OMP_NUM_THREADS k); reflexivity.
Qed.

Lemma initialize_skip k w : initialize k false w = (Returned tt, w).
Proof. reflexivity. Qed.

(** The vector [errors] holds the reasons of the guards that fail, in the
    order of the guards. *)
Lemma set_status_errors_guards k vp n :
  set_status_errors k vp n =
  map guard_reason (List.filter (guard_fails k vp n) all_guards).
Proof.
  unfold set_status_errors, all_guards, push_back_if. cbn [List.filter guard_fails].
  destruct (0 <? node_manager_size k),
    (connection_manager_get_user_set_delay_extrema k),
    (simulation_manager_has_been_simulated k),
    (model_manager_are_model_defaults_modified k),
    (sp_manager_is_structural_plasticity_enabled k),
    (force_singlethreading_ vp), (1 <? n); reflexivity.
Qed.

Lemma guard_in_all g : In g all_guards.
Proof. destruct g; cbn; tauto. Qed.

Lemma set_status_errors_In k vp n g :
  guard_fails k vp n g = true -> In (guard_reason g) (set_status_errors k vp n).
Proof.
  intros H. rewrite set_status_errors_guards. apply in_map.
  apply List.filter_In. split; [apply guard_in_all | exact H].
Qed.

Lemma set_status_errors_nil k vp n :
  set_status_errors k vp n = [] -> forall g, guard_fails k vp n g = false.
Proof.
  intros H g. destruct (guard_fails k vp n g) eqn:E; [|reflexivity].
  apply set_status_errors_In in E. rewrite H in E. destruct E.
Qed.

(** ** Messages *)

Lemma string_app_assoc (a b c : string) : ((a +:+ b) +:+ c = a +:+ (b +:+ c))%string.
Proof.
  induction a as [|x a IH]; [reflexivity|].
  change (String x ((a +:+ b) +:+ c) = String x (a +:+ (b +:+ c)))%string.
  now f_equal.
Qed.

Lemma contains_app_r s sub t : contains s sub -> contains (s +:+ t)%string sub.
Proof.
  intros (pre & post & ->). exists pre, (post +:+ t)%string.
  now rewrite !string_app_assoc.
Qed.

Lemma contains_app_l s sub t : contains s sub -> contains (t +:+ s)%string sub.
Proof.
  intros (pre & post & ->). exists (t +:+ pre)%string, post.
  now rewrite !string_app_assoc.
Qed.

Lemma contains_here pre sub post : contains (pre +:+ sub +:+ post)%string sub.
Proof. now exists pre, post. Qed.

Lemma fold_msg_keeps errors acc sub :
  contains acc sub ->
  contains (fold_left (fun msg error => msg +:+ (" " +:+ error +:+ "."))%string errors acc) sub.
Proof.
  revert acc. induction errors as [|e errors IH]; intros acc H; cbn.
  - exact H.
  - apply IH. now apply contains_app_r.
Qed.

(** Every collected reason occurs in the message. *)
Lemma set_status_msg_contains errors e :
  In e errors -> contains (set_status_msg errors) e.
Proof.
  unfold set_status_msg.
  generalize "Number of threads unchanged. Error conditions:"%string as acc.
  induction errors as [|x errors IH]; intros acc Hin; [destruct Hin|].
  cbn. destruct Hin as [-> | Hin].
  - apply fold_msg_keeps, contains_app_l, contains_here.
  - now apply IH.
Qed.

(** ** [set_status], outcome by outcome *)

Lemma set_status_run k d w :
  set_status k d w =
  match set_status_requested k d (vp_manager w) with
  | inl e => (Thrown e, w)
  | inr (n_threads, n_vps) =>
      if (n_threads =? get_num_threads (vp_manager w))
         && (n_vps =? get_num_virtual_processes k (vp_manager w))
      then (Returned tt, w)
      else
        match set_status_errors k (vp_manager w) n_threads with
        | [] => (Returned tt, changed_world k n_threads w)
        | errors => (Thrown (KernelException (set_status_msg errors)), w)
        end
  end.
Proof.
  unfold set_status. unfold bind at 1. unfold this.
  destruct (set_status_requested k d (vp_manager w)) as [e | [n_threads n_vps]];
    [reflexivity|].
  destruct (n_threads =? get_num_threads (vp_manager w)),
    (n_vps =? get_num_virtual_processes k (vp_manager w)); cbn [negb orb andb];
    try reflexivity.
  all: destruct (set_status_errors k (vp_manager w) n_threads) as [|e errors] eqn:E;
    cbn [is_nil negb]; try reflexivity.
  all: pose proof (set_status_errors_nil _ _ _ E guard_structural_plasticity) as Hsp;
    cbn in Hsp.
  all: unfold changed_world, change_number_of_threads; unfold hint_warning.
  all: destruct ((0 <? get_OMP_NUM_THREADS k) && negb (get_OMP_NUM_THREADS k =? n_threads)).
  all: cbv [when bind emit ret]; rewrite set_num_threads_run, Hsp.
  all: cbn [vp_manager events]; rewrite <- ?app_assoc, ?app_nil_r; try reflexivity.
  all: destruct w; cbn [vp_manager events app]; reflexivity.
Qed.

(** ** The requested values *)

Lemma set_status_requested_no_vps k d vp :
  d !! names.total_num_virtual_procs = None ->
  set_status_requested k d vp =
  inr (match d !! names.local_num_threads with
       | Some t => to_size_t t
       | None => get_num_threads vp
       end,
       get_num_virtual_processes k vp).
Proof.
  intros Hv. unfold set_status_requested, updateValue. rewrite Hv.
  destruct (d !! names.local_num_threads); reflexivity.
Qed.

Lemma set_status_requested_vps k d vp v :
  d !! names.total_num_virtual_procs = Some v ->
  set_status_requested k d vp =
  let n_vps := to_size_t v in
  let n_threads :=
    match d !! names.local_num_threads with
    | Some t => to_size_t t
    | None => n_vps / mpi_manager_get_num_processes k
    end in
  if negb (n_vps / mpi_manager_get_num_processes k =? n_threads)
     || negb (n_vps mod mpi_manager_get_num_processes k =? 0)
  then inl (BadProperty BadProperty_msg)
  else inr (n_threads, n_vps).
Proof.
  intros Hv. unfold set_status_requested, updateValue. rewrite Hv.
  destruct (d !! names.local_num_threads); reflexivity.
Qed.

(** A request with a virtual process count that passes the check is an exact
    decomposition. *)
Lemma set_status_requested_decomposed k d vp v n_threads n_vps :
  Kernel_ok k ->
  d !! names.total_num_virtual_procs = Some v ->
  set_status_requested k d vp = inr (n_threads, n_vps) ->
  n_vps = to_size_t v /\
  n_threads = n_vps / mpi_manager_get_num_processes k /\
  n_vps = n_threads * mpi_manager_get_num_processes k.
Proof.
  intros [HP _] Hv. rewrite (set_status_requested_vps _ _ _ _ Hv). cbv zeta.
  set (P := mpi_manager_get_num_processes k) in *.
  set (n := match d !! names.local_num_threads with
            | Some t => to_size_t t | None => to_size_t v / P end).
  destruct (Z.eqb_spec (to_size_t v / P) n) as [Hn|]; [|discriminate].
  destruct (Z.eqb_spec (to_size_t v mod P) 0) as [Hm|]; [|discriminate].
  cbn. intros [= <- <-]. repeat split; [congruence|].
  rewrite <- Hn. pose proof (Z.div_mod (to_size_t v) P ltac:(lia)). lia.
Qed.

Lemma set_status_requested_size_t k d vp n_threads n_vps :
  Kernel_ok k ->
  is_size_t (n_threads_ vp) ->
  set_status_requested k d vp = inr (n_threads, n_vps) ->
  is_size_t n_threads /\ is_size_t n_vps.
Proof.
  intros Hk Hn H.
  destruct (d !! names.total_num_virtual_procs) as [v|] eqn:Hv.
  - destruct (set_status_requested_decomposed _ _ _ _ _ _ Hk Hv H) as (-> & -> & _).
    destruct Hk as [HP _]. pose proof (to_size_t_range v) as Hr.
    split; [|exact Hr]. unfold is_size_t in *. split.
    + apply Z.div_pos; lia.
    + apply Z.div_lt_upper_bound; nia.
  - rewrite (set_status_requested_no_vps _ _ _ Hv) in H. injection H as <- <-.
    split; [|apply to_size_t_range].
    destruct (d !! names.local_num_threads); [apply to_size_t_range | exact Hn].
Qed.

(** ** What holds in every reachable state *)

Lemma initial_world_well_formed : well_formed initial_world.
Proof.
  split; cbn; [unfold is_size_t, SIZE_MODULUS; lia | now destruct OPENMP].
Qed.

Lemma set_status_well_formed k d w :
  Kernel_ok k -> well_formed w -> well_formed (snd (set_status k d w)).
Proof.
  intros Hk [Hn Hf]. rewrite set_status_run.
  destruct (set_status_requested k d (vp_manager w)) as [e | [n_threads n_vps]] eqn:E;
    [now split|].
  destruct (_ && _); [now split|].
  destruct (set_status_errors k (vp_manager w) n_threads); [|now split].
  split; cbn; [|exact Hf].
  now destruct (set_status_requested_size_t _ _ _ _ _ Hk Hn E).
Qed.

Lemma run_well_formed c w : call_ok c -> well_formed w -> well_formed (run c w).
Proof.
  intros Hc Hw. destruct c as [k [] | b | k d | k d]; cbn [run].
  - rewrite initialize_run. destruct Hw as [_ Hf]. split; cbn; [|exact Hf].
    unfold is_size_t, SIZE_MODULUS; lia.
  - exact Hw.
  - exact Hw.
  - now apply set_status_well_formed.
  - exact Hw.
Qed.

Lemma reachable_by_well_formed (ok : call -> Prop) w :
  (forall c, ok c -> call_ok c) -> reachable_by ok w -> well_formed w.
Proof.
  intros Hok. induction 1 as [|c w Hc _ IH].
  - apply initial_world_well_formed.
  - apply run_well_formed; auto.
Qed.

Lemma reachable_well_formed w : reachable w -> well_formed w.
Proof. apply reachable_by_well_formed. auto. Qed.

(** ** The properties of the specification *)

(** C1, as the code has it.  In every reachable state the thread count is a
    [size_t] and the virtual process count is the [size_t] product of the
    thread count and the process count: their product modulo 2^64, which is
    the product of the integers whenever that is below 2^64.  [get_status]
    writes these two quantities, the current thread count and the derived
    product, each converted to [long] (read back as [size_t] it is the
    quantity itself, and it is the quantity itself when the product fits a
    [long]), leaves every other entry alone and changes neither the manager
    nor the trace. *)
Theorem get_status_reports_counts (k : Kernel) (d : Dictionary) (w : World) :
  Kernel_ok k ->
  reachable w ->
  let n := get_num_threads (vp_manager w) in
  let vps := get_num_virtual_processes k (vp_manager w) in
  let P := mpi_manager_get_num_processes k in
  is_size_t n /\
  vps = (n * P) mod 2 ^ 64 /\
  (n * P < 2 ^ 64 -> vps = n * P) /\
  get_status k d w =
    (Returned (<[names.total_num_virtual_procs := to_long vps]>
                 (<[names.local_num_threads := to_long n]> d)), w) /\
  (forall key, key <> names.local_num_threads -> key <> names.total_num_virtual_procs ->
     forall d', fst (get_status k d w) = Returned d' -> d' !! key = d !! key) /\
  to_size_t (to_long n) = n /\
  to_size_t (to_long vps) = vps /\
  (n * P <= LONG_MAX -> to_long n = n /\ to_long vps = n * P).
Proof.
  intros [HP _] Hr. cbv zeta.
  destruct (reachable_well_formed _ Hr) as [Hn _].
  set (n := get_num_threads (vp_manager w)) in *.
  set (P := mpi_manager_get_num_processes k) in *.
  set (vps := get_num_virtual_processes k (vp_manager w)).
  change (n_threads_ (vp_manager w)) with n in Hn.
  assert (Hv : is_size_t vps) by apply to_size_t_range.
  assert (Hexact : n * P < 2 ^ 64 -> vps = n * P).
  { intros Hfit. unfold vps, get_num_virtual_processes. fold n P. apply to_size_t_id.
    unfold is_size_t, SIZE_MODULUS in *. nia. }
  split; [exact Hn|]. split; [reflexivity|]. split; [exact Hexact|].
  split; [reflexivity|]. split.
  { intros key H1 H2 d' [= <-]. unfold def.
    rewrite lookup_insert_ne by congruence. now rewrite lookup_insert_ne by congruence. }
  split; [rewrite to_size_t_to_long; now apply to_size_t_id|].
  split; [rewrite to_size_t_to_long; now apply to_size_t_id|].
  intros Hfit. unfold is_size_t, LONG_MAX, SIZE_MODULUS in *.
  rewrite Hexact by lia.
  split; apply to_long_id; unfold LONG_MAX; nia.
Qed.

(** A change that some guard forbids: one [KernelException] with the message
    built from all collected reasons, and nothing written. *)
Lemma set_status_locked k d w n_threads n_vps :
  set_status_requested k d (vp_manager w) = inr (n_threads, n_vps) ->
  (n_threads <> get_num_threads (vp_manager w) \/
   n_vps <> get_num_virtual_processes k (vp_manager w)) ->
  set_status_errors k (vp_manager w) n_threads <> [] ->
  set_status k d w =
  (Thrown (KernelException (set_status_msg (set_status_errors k (vp_manager w) n_threads))), w).
Proof.
  intros Hreq Hchg Herr. rewrite set_status_run, Hreq.
  destruct (Z.eqb_spec n_threads (get_num_threads (vp_manager w))),
    (Z.eqb_spec n_vps (get_num_virtual_processes k (vp_manager w)));
    cbn [andb]; try (exfalso; lia).
  all: destruct (set_status_errors k (vp_manager w) n_threads); congruence.
Qed.

(** C2.  When the values [set_status] arrives at differ from the current ones
    and at least one guard fails, the call throws one [KernelException]
    (KernelLocked) whose message is built from the reasons of exactly the
    failing guards, so it contains the reason of every failing guard, and the
    world - thread count, virtual process count, trace - is as before. *)
Theorem set_status_locked_reports_all_guards
    (k : Kernel) (d : Dictionary) (w : World) (n_threads n_vps : Z) :
  set_status_requested k d (vp_manager w) = inr (n_threads, n_vps) ->
  (n_threads <> get_num_threads (vp_manager w) \/
   n_vps <> get_num_virtual_processes k (vp_manager w)) ->
  (exists g, guard_fails k (vp_manager w) n_threads g = true) ->
  exists msg,
    set_status k d w = (Thrown (KernelException msg), w) /\
    msg = set_status_msg
            (map guard_reason
               (List.filter (guard_fails k (vp_manager w) n_threads) all_guards)) /\
    (forall g, guard_fails k (vp_manager w) n_threads g = true ->
               contains msg (guard_reason g)) /\
    get_num_threads (vp_manager (snd (set_status k d w))) = get_num_threads (vp_manager w) /\
    get_num_virtual_processes k (vp_manager (snd (set_status k d w)))
      = get_num_virtual_processes k (vp_manager w).
Proof.
  intros Hreq Hchg [g0 Hg0].
  assert (Herr : set_status_errors k (vp_manager w) n_threads <> []).
  { intros E. now rewrite (set_status_errors_nil _ _ _ E g0) in Hg0. }
  pose proof (set_status_locked _ _ _ _ _ Hreq Hchg Herr) as Hrun.
  eexists. split; [exact Hrun|]. rewrite Hrun. cbn [snd].
  split; [now rewrite set_status_errors_guards|].
  split; [|split; reflexivity].
  intros g Hg. now apply set_status_msg_contains, set_status_errors_In.
Qed.

(** C6.  With structural plasticity enabled, a change to a thread count above
    one throws a [KernelException] (KernelLocked) whose collected reasons, and
    whose message, contain the plasticity conflict, whatever the other guards
    say; nothing is written. *)
Theorem set_status_plasticity_conflict
    (k : Kernel) (d : Dictionary) (w : World) (n_threads n_vps : Z) :
  set_status_requested k d (vp_manager w) = inr (n_threads, n_vps) ->
  (n_threads <> get_num_threads (vp_manager w) \/
   n_vps <> get_num_virtual_processes k (vp_manager w)) ->
  sp_manager_is_structural_plasticity_enabled k = true ->
  1 < n_threads ->
  exists msg,
    set_status k d w = (Thrown (KernelException msg), w) /\
    In "Structural plasticity enabled: multithreading cannot be enabled"%string
       (set_status_errors k (vp_manager w) n_threads) /\
    contains msg "Structural plasticity enabled: multithreading cannot be enabled".
Proof.
  intros Hreq Hchg Hsp Hn.
  assert (Hg : guard_fails k (vp_manager w) n_threads guard_structural_plasticity = true).
  { cbn. rewrite Hsp. cbn. now apply Z.ltb_lt. }
  pose proof (set_status_errors_In _ _ _ _ Hg) as Hin. cbn [guard_reason] in Hin.
  eexists. split; [|split; [exact Hin|]].
  - apply (set_status_locked _ _ _ _ _ Hreq Hchg). intros E. now rewrite E in Hin.
  - now apply set_status_msg_contains.
Qed.


(** C4, as the code has it.  Asking for the current thread count and/or the
    current virtual process count (as [get_status] reports them) returns
    normally and leaves the world as it was - no write, no call into the
    runtime, no exception - whatever the guards say; when the request names
    the virtual process count, the state is one whose thread count times the
    process count is below 2^64. *)
Theorem set_status_current_is_noop (k : Kernel) (d : Dictionary) (w : World) :
  Kernel_ok k ->
  let n := get_num_threads (vp_manager w) in
  let vps := get_num_virtual_processes k (vp_manager w) in
  is_size_t n ->
  (d !! names.local_num_threads = None \/
   d !! names.local_num_threads = Some (to_long n)) ->
  (d !! names.total_num_virtual_procs = None \/
   d !! names.total_num_virtual_procs = Some (to_long vps) /\
   n * mpi_manager_get_num_processes k < 2 ^ 64) ->
  set_status k d w = (Returned tt, w).
Proof.
  intros [HP _]. cbv zeta.
  set (n := get_num_threads (vp_manager w)).
  set (P := mpi_manager_get_num_processes k) in *.
  set (vps := get_num_virtual_processes k (vp_manager w)).
  intros Hn Ht Hv.
  assert (Hrt : to_size_t (to_long n) = n)
    by (rewrite to_size_t_to_long; now apply to_size_t_id).
  assert (Hrv : to_size_t (to_long vps) = vps)
    by (rewrite to_size_t_to_long; apply to_size_t_id, to_size_t_range).
  assert (Hreq : set_status_requested k d (vp_manager w) = inr (n, vps)).
  { destruct Hv as [Hv | [Hv Hfit]].
    - rewrite (set_status_requested_no_vps _ _ _ Hv).
      destruct Ht as [-> | ->]; [reflexivity | now rewrite Hrt].
    - assert (Hvps : vps = n * P).
      { unfold vps, get_num_virtual_processes. fold n P. apply to_size_t_id.
        unfold is_size_t, SIZE_MODULUS in *. nia. }
      rewrite (set_status_requested_vps _ _ _ _ Hv). cbv zeta. fold P. rewrite Hrv.
      assert (Hq : vps / P = n) by (rewrite Hvps; apply Z.div_mul; lia).
      assert (Hm : vps mod P = 0) by (rewrite Hvps; apply Z.mod_mul; lia).
      rewrite Hq, Hm.
      destruct Ht as [-> | ->]; rewrite ?Hrt, Z.eqb_refl; reflexivity. }
  rewrite set_status_run, Hreq. fold n vps. now rewrite !Z.eqb_refl.
Qed.


(** C10.  A request without a virtual process count skips the decomposition
    check: the locals are the requested thread count as read (or the current
    one) and the current virtual process count, no [BadProperty]
    (IncompatibleConfiguration) can come out, and the call goes on to the
    comparison with the current count and to the guards. *)
Theorem set_status_without_vps (k : Kernel) (d : Dictionary) (w : World) :
  d !! names.total_num_virtual_procs = None ->
  let n_threads :=
    match d !! names.local_num_threads with
    | Some t => to_size_t t
    | None => get_num_threads (vp_manager w)
    end in
  set_status_requested k d (vp_manager w)
    = inr (n_threads, get_num_virtual_processes k (vp_manager w)) /\
  (forall msg w', set_status k d w <> (Thrown (BadProperty msg), w')) /\
  set_status k d w =
    (if n_threads =? get_num_threads (vp_manager w) then (Returned tt, w)
     else match set_status_errors k (vp_manager w) n_threads with
          | [] => (Returned tt, changed_world k n_threads w)
          | errors => (Thrown (KernelException (set_status_msg errors)), w)
          end).
Proof.
  intros Hv n_threads.
  pose proof (set_status_requested_no_vps k d (vp_manager w) Hv) as Hreq.
  fold n_threads in Hreq.
  assert (Hrun : set_status k d w =
    (if n_threads =? get_num_threads (vp_manager w) then (Returned tt, w)
     else match set_status_errors k (vp_manager w) n_threads with
          | [] => (Returned tt, changed_world k n_threads w)
          | errors => (Thrown (KernelException (set_status_msg errors)), w)
          end)).
  { rewrite set_status_run, Hreq, Z.eqb_refl, andb_true_r. reflexivity. }
  split; [exact Hreq|]. split; [|exact Hrun].
  intros msg w'. rewrite Hrun.
  destruct (n_threads =? get_num_threads (vp_manager w)); [discriminate|].
  destruct (set_status_errors k (vp_manager w) n_threads); discriminate.
Qed.

(** The thread count a request arrives at. *)
Lemma set_status_requested_threads k d vp n_threads n_vps :
  set_status_requested k d vp = inr (n_threads, n_vps) ->
  n_threads =
  match d !! names.local_num_threads, d !! names.total_num_virtual_procs with
  | Some t, _ => to_size_t t
  | None, Some v => to_size_t v / mpi_manager_get_num_processes k
  | None, None => get_num_threads vp
  end.
Proof.
  destruct (d !! names.total_num_virtual_procs) as [v|] eqn:Hv.
  - rewrite (set_status_requested_vps _ _ _ _ Hv). cbv zeta.
    destruct (_ || _); [discriminate|]. intros [= <- _].
    destruct (d !! names.local_num_threads); reflexivity.
  - rewrite (set_status_requested_no_vps _ _ _ Hv). intros [= <- _].
    destruct (d !! names.local_num_threads); reflexivity.
Qed.

Lemma set_status_keeps_positive k d w :
  Kernel_ok k -> long_request d -> ~ requests_zero d ->
  1 <= n_threads_ (vp_manager w) ->
  1 <= n_threads_ (vp_manager (snd (set_status k d w))).
Proof.
  intros Hk [Hlt Hlv] Hnz Hpos. rewrite set_status_run.
  destruct (set_status_requested k d (vp_manager w)) as [e | [n_threads n_vps]] eqn:E;
    [exact Hpos|].
  destruct (_ && _); [exact Hpos|].
  destruct (set_status_errors k (vp_manager w) n_threads); [|exact Hpos].
  cbn. pose proof (set_status_requested_threads _ _ _ _ _ E) as Hn.
  unfold requests_zero in Hnz.
  destruct (d !! names.local_num_threads) as [t|] eqn:Et.
  - pose proof (to_size_t_range t) as Hr. unfold is_size_t in Hr.
    assert (to_size_t t <> 0).
    { intros H0. apply (to_size_t_long_zero _ (Hlt t eq_refl)) in H0. subst t. tauto. }
    lia.
  - destruct (d !! names.total_num_virtual_procs) as [v|] eqn:Ev; [|now subst].
    destruct (set_status_requested_decomposed _ _ _ _ _ _ Hk Ev E) as (Hv & Hq & Hprod).
    destruct Hk as [HP _].
    pose proof (to_size_t_range v) as Hr. unfold is_size_t in Hr.
    assert (to_size_t v <> 0).
    { intros H0. apply (to_size_t_long_zero _ (Hlv v eq_refl)) in H0. subst v. tauto. }
    assert (0 <= n_threads) by (rewrite Hn; apply Z.div_pos; lia).
    nia.
Qed.

(** C7, as the code has it.  At every point reached from the constructed
    manager by well-formed calls none of which asks [set_status] for zero
    threads ([local_num_threads] 0, or [total_num_virtual_procs] 0 without a
    thread count), the stored thread count is a positive [size_t]. *)
Theorem thread_count_positive_without_zero_request (w : World) :
  reachable_by call_requests_no_zero w ->
  1 <= get_num_threads (vp_manager w) < SIZE_MODULUS.
Proof.
  intros Hr. split.
  - induction Hr as [|c w [Hok Hc] _ IH]; [cbn; lia|].
    destruct c as [k [] | b | k d | k d]; cbn [run]; try exact IH.
    + rewrite initialize_run. cbn. lia.
    + destruct Hc as [Hl Hz]. now apply set_status_keeps_positive.
  - apply (reachable_by_well_formed call_requests_no_zero); [|exact Hr].
    now intros c [Hok _].
Qed.

(** C8.  [set_num_threads n] asserts that structural plasticity is not enabled
    together with [n > 1], then stores [n] and (in a build with OpenMP) asks
    the runtime for [n] threads.  Called from [initialize] (with 1) or from
    [set_status] (after the guards: an empty error vector means the asserted
    condition holds), the assertion never fails: neither call aborts. *)
Theorem set_num_threads_assertion_holds :
  (forall k n w,
     set_num_threads k n w =
     if sp_manager_is_structural_plasticity_enabled k && (1 <? n)
     then (Aborted, w)
     else (Returned tt,
           {| vp_manager := {| force_singlethreading_ := force_singlethreading_ (vp_manager w);
                               n_threads_ := n |};
              events := events w ++ omp_calls [omp_set_num_threads (to_int n)] |})) /\
  (forall k vp n,
     set_status_errors k vp n = [] ->
     sp_manager_is_structural_plasticity_enabled k && (1 <? n) = false) /\
  (forall k reset_kernel w, fst (initialize k reset_kernel w) <> Aborted) /\
  (forall k d w, fst (set_status k d w) <> Aborted).
Proof.
  split; [exact set_num_threads_run|]. split; [|split].
  - intros k vp n E. exact (set_status_errors_nil _ _ _ E guard_structural_plasticity).
  - intros k [] w; [rewrite initialize_run | rewrite initialize_skip]; discriminate.
  - intros k d w. rewrite set_status_run.
    destruct (set_status_requested k d (vp_manager w)) as [e | [n_threads n_vps]];
      [discriminate|].
    destruct (_ && _); [discriminate|].
    destruct (set_status_errors k (vp_manager w) n_threads); discriminate.
Qed.

Lemma log_lines_app es es' : log_lines (es ++ es') = log_lines es ++ log_lines es'.
Proof. apply List.filter_app. Qed.

Lemma log_lines_omp_calls es :
  Forall (fun e => is_LOG e = false) es -> log_lines (omp_calls es) = [].
Proof.
  unfold omp_calls. destruct OPENMP; [|reflexivity].
  induction 1 as [|e es He _ IH]; cbn; [reflexivity | now rewrite He].
Qed.

Lemma log_lines_changed_world k n w :
  log_lines (events (changed_world k n w)) = log_lines (events w) ++ hint_warning k n.
Proof.
  unfold changed_world. cbn [events]. rewrite !log_lines_app.
  rewrite log_lines_omp_calls by (repeat constructor).
  unfold hint_warning. destruct (_ && _); cbn; now rewrite ?app_nil_r.
Qed.

(** C9, as the code has it.  [initialize] logs the note about the ignored
    [OMP_NUM_THREADS] exactly when it resets and the hint exceeds 1;
    [set_status] logs the warning exactly when it commits a change and the
    hint is positive and differs from the new thread count (a call that
    throws or changes nothing logs nothing).  The hint decides nothing else:
    in another process environment both calls end in the same outcome and
    the same manager state. *)
Theorem OMP_NUM_THREADS_hint_is_advisory :
  (forall k w,
     log_lines (events (snd (initialize k true w))) =
     log_lines (events w) ++
     (if 1 <? get_OMP_NUM_THREADS k
      then [LOG M_INFO "VPManager::initialize()" OMP_NUM_THREADS_ignored]
      else [])) /\
  (forall k w, initialize k false w = (Returned tt, w)) /\
  (forall k d w,
     snd (set_status k d w) = w \/
     exists n_threads,
       set_status k d w = (Returned tt, changed_world k n_threads w) /\
       log_lines (events (snd (set_status k d w))) =
       log_lines (events w) ++
       (if (0 <? get_OMP_NUM_THREADS k) && negb (get_OMP_NUM_THREADS k =? n_threads)
        then [LOG M_WARNING "VPManager::set_status()" OMP_NUM_THREADS_ignored]
        else [])) /\
  (forall k env reset_kernel w,
     fst (initialize (with_environ k env) reset_kernel w) = fst (initialize k reset_kernel w) /\
     vp_manager (snd (initialize (with_environ k env) reset_kernel w))
       = vp_manager (snd (initialize k reset_kernel w))) /\
  (forall k env d w,
     fst (set_status (with_environ k env) d w) = fst (set_status k d w) /\
     vp_manager (snd (set_status (with_environ k env) d w))
       = vp_manager (snd (set_status k d w))).
Proof.
  split; [|split; [|split; [|split]]].
  - intros k w. rewrite initialize_run. cbn [snd events].
    rewrite !log_lines_app, !log_lines_omp_calls by (repeat constructor).
    destruct (1 <? get_OMP_NUM_THREADS k); cbn; now rewrite ?app_nil_r.
  - intros k w. apply initialize_skip.
  - intros k d w. rewrite set_status_run.
    destruct (set_status_requested k d (vp_manager w)) as [e | [n_threads n_vps]];
      [now left|].
    destruct (_ && _); [now left|].
    destruct (set_status_errors k (vp_manager w) n_threads); [|now left].
    right. exists n_threads. split; [reflexivity|]. apply log_lines_changed_world.
  - intros k env [] w; [rewrite !initialize_run | rewrite !initialize_skip]; now split.
  - intros k env d w. rewrite !set_status_run.
    change (set_status_requested (with_environ k env) d (vp_manager w))
      with (set_status_requested k d (vp_manager w)).
    destruct (set_status_requested k d (vp_manager w)) as [e | [n_threads n_vps]];
      [now split|].
    change (get_num_virtual_processes (with_environ k env) (vp_manager w))
      with (get_num_virtual_processes k (vp_manager w)).
    destruct (_ && _); [now split|].
    change (set_status_errors (with_environ k env) (vp_manager w) n_threads)
      with (set_status_errors k (vp_manager w) n_threads).
    destruct (set_status_errors k (vp_manager w) n_threads); now split.
Qed.

(** ** Further properties of [set_status] *)

Lemma to_long_to_size_t z : is_long z -> to_long (to_size_t z) = z.
Proof.
  unfold is_long, LONG_MIN, to_long, to_size_t. unfold LONG_MAX, SIZE_MODULUS. intros Hz.
  cbv zeta. rewrite Z.mod_mod by lia.
  destruct (Z_lt_le_dec z 0) as [Hneg | Hpos].
  - assert (Hm : z mod 2 ^ 64 = z + 2 ^ 64)
      by (symmetry; apply Z.mod_unique with (q := -1); lia).
    rewrite Hm. destruct (Z.leb_spec (z + 2 ^ 64) (2 ^ 63 - 1)); lia.
  - rewrite Z.mod_small by lia.
    destruct (Z.leb_spec z (2 ^ 63 - 1)); lia.
Qed.

(** Once the decomposition check has passed, the virtual process count
    differs from the current one only if the thread count does. *)
Lemma set_status_requested_same_threads k d vp n_threads n_vps :
  Kernel_ok k ->
  set_status_requested k d vp = inr (n_threads, n_vps) ->
  n_threads = get_num_threads vp ->
  n_vps = get_num_virtual_processes k vp.
Proof.
  intros Hk Hreq Hn.
  destruct (d !! names.total_num_virtual_procs) as [v|] eqn:Hv.
  - destruct (set_status_requested_decomposed _ _ _ _ _ _ Hk Hv Hreq) as (Hr & _ & Hprod).
    unfold get_num_virtual_processes. rewrite <- Hn, <- Hprod.
    symmetry. apply to_size_t_id. rewrite Hr. apply to_size_t_range.
  - rewrite (set_status_requested_no_vps _ _ _ Hv) in Hreq. now injection Hreq as _ <-.
Qed.

Lemma set_status_run_threads k d w n_threads n_vps :
  Kernel_ok k ->
  set_status_requested k d (vp_manager w) = inr (n_threads, n_vps) ->
  set_status k d w =
  if n_threads =? get_num_threads (vp_manager w) then (Returned tt, w)
  else match set_status_errors k (vp_manager w) n_threads with
       | [] => (Returned tt, changed_world k n_threads w)
       | errors => (Thrown (KernelException (set_status_msg errors)), w)
       end.
Proof.
  intros Hk Hreq. rewrite set_status_run, Hreq.
  destruct (Z.eqb_spec n_threads (get_num_threads (vp_manager w))) as [Hn|]; [|reflexivity].
  rewrite (set_status_requested_same_threads _ _ _ _ _ Hk Hreq Hn).
  now rewrite Z.eqb_refl.
Qed.

(** X1.  What [set_status] accepted, [get_status] reports: after a call that
    returns, the status dictionary holds every requested value under its
    name, and when a virtual process count was requested the count is the
    product of thread count and process count as integers. *)
Theorem set_status_then_get_status (k : Kernel) (d d0 : Dictionary) (w w' : World) :
  Kernel_ok k ->
  long_request d ->
  set_status k d w = (Returned tt, w') ->
  exists d',
    get_status k d0 w' = (Returned d', w') /\
    (forall t, d !! names.local_num_threads = Some t ->
               d' !! names.local_num_threads = Some t) /\
    (forall v, d !! names.total_num_virtual_procs = Some v ->
               d' !! names.total_num_virtual_procs = Some v /\
               get_num_virtual_processes k (vp_manager w')
               = get_num_threads (vp_manager w') * mpi_manager_get_num_processes k).
Proof.
  intros Hk [Hlt Hlv] Hrun.
  destruct (set_status_requested k d (vp_manager w)) as [e | [n_threads n_vps]] eqn:Hreq.
  { rewrite set_status_run, Hreq in Hrun. discriminate. }
  assert (Hn' : get_num_threads (vp_manager w') = n_threads).
  { rewrite (set_status_run_threads _ _ _ _ _ Hk Hreq) in Hrun.
    destruct (Z.eqb_spec n_threads (get_num_threads (vp_manager w))) as [Hn|].
    - injection Hrun as <-. now symmetry.
    - destruct (set_status_errors k (vp_manager w) n_threads); [|discriminate].
      now injection Hrun as <-. }
  eexists. split; [reflexivity|]. unfold def. split.
  - intros t Ht.
    rewrite lookup_insert_ne by discriminate. rewrite lookup_insert_eq. f_equal.
    rewrite Hn', (set_status_requested_threads _ _ _ _ _ Hreq), Ht.
    apply to_long_to_size_t, (Hlt t Ht).
  - intros v Hv.
    destruct (set_status_requested_decomposed _ _ _ _ _ _ Hk Hv Hreq) as (Hr & _ & Hprod).
    assert (Hvps : get_num_virtual_processes k (vp_manager w') = n_vps).
    { unfold get_num_virtual_processes. rewrite Hn', <- Hprod.
      apply to_size_t_id. rewrite Hr. apply to_size_t_range. }
    split.
    + rewrite lookup_insert_eq. f_equal. rewrite Hvps, Hr.
      apply to_long_to_size_t, (Hlv v Hv).
    + now rewrite Hvps, Hn'.
Qed.

(** The request leads to the same thread count in the state it has produced. *)
Lemma set_status_requested_again k d vp n_threads n_vps :
  set_status_requested k d vp = inr (n_threads, n_vps) ->
  exists n_vps',
    set_status_requested k d
      {| force_singlethreading_ := force_singlethreading_ vp; n_threads_ := n_threads |}
    = inr (n_threads, n_vps').
Proof.
  intros Hreq.
  destruct (d !! names.total_num_virtual_procs) as [v|] eqn:Hv.
  - exists n_vps. rewrite (set_status_requested_vps k d vp v Hv) in Hreq.
    rewrite (set_status_requested_vps _ _ _ _ Hv). exact Hreq.
  - pose proof (set_status_requested_threads _ _ _ _ _ Hreq) as Hn. rewrite Hv in Hn.
    eexists. rewrite (set_status_requested_no_vps _ _ _ Hv). f_equal. f_equal.
    destruct (d !! names.local_num_threads); [now symmetry | reflexivity].
Qed.

(** X2.  [set_status] is idempotent: when a call returns, the same request in
    the same kernel, made again in the state the call left, returns and
    changes nothing. *)
Theorem set_status_again_is_noop (k : Kernel) (d : Dictionary) (w w' : World) :
  Kernel_ok k ->
  set_status k d w = (Returned tt, w') ->
  set_status k d w' = (Returned tt, w').
Proof.
  intros Hk Hrun.
  destruct (set_status_requested k d (vp_manager w)) as [e | [n_threads n_vps]] eqn:Hreq.
  { rewrite set_status_run, Hreq in Hrun. discriminate. }
  pose proof Hrun as Hrun0.
  rewrite (set_status_run_threads _ _ _ _ _ Hk Hreq) in Hrun.
  destruct (n_threads =? get_num_threads (vp_manager w)).
  - injection Hrun as <-. exact Hrun0.
  - destruct (set_status_errors k (vp_manager w) n_threads); [|discriminate].
    injection Hrun as <-.
    destruct (set_status_requested_again _ _ _ _ _ Hreq) as [n_vps' Hreq'].
    rewrite (set_status_run_threads k d _ n_threads n_vps' Hk); [|exact Hreq'].
    cbn [changed_world vp_manager get_num_threads n_threads_]. now rewrite Z.eqb_refl.
Qed.

Lemma set_status_msg_header errors :
  exists rest,
    set_status_msg errors = ("Number of threads unchanged. Error conditions:" +:+ rest)%string.
Proof.
  unfold set_status_msg.
  assert (H : forall acc, exists rest,
             fold_left (fun msg error => msg +:+ (" " +:+ error +:+ "."))%string errors acc
             = (acc +:+ rest)%string).
  { induction errors as [|e errors IH]; intros acc; cbn.
    - exists EmptyString. induction acc as [|c acc IHa]; [reflexivity|].
      change (String c acc = String c (acc +:+ EmptyString))%string. now f_equal.
    - destruct (IH (acc +:+ (" " +:+ e +:+ "."))%string) as [rest ->].
      eexists. apply string_app_assoc. }
  apply H.
Qed.

(** X3.  Whatever [set_status] throws, it has written nothing.  [BadProperty]
    comes only from a request that names a virtual process count, with the
    fixed message; a [KernelException] comes only from a request that names a
    thread count or a virtual process count, and its message starts with the
    header; so a request that names neither returns and changes nothing. *)
Theorem set_status_throws_without_writing (k : Kernel) (d : Dictionary) (w : World) :
  (forall e, fst (set_status k d w) = Thrown e ->
     snd (set_status k d w) = w /\
     match e with
     | BadProperty msg =>
         msg = BadProperty_msg /\ is_Some (d !! names.total_num_virtual_procs)
     | KernelException msg =>
         (is_Some (d !! names.local_num_threads) \/
          is_Some (d !! names.total_num_virtual_procs)) /\
         exists rest,
           msg = ("Number of threads unchanged. Error conditions:" +:+ rest)%string
     end) /\
  (d !! names.local_num_threads = None ->
   d !! names.total_num_virtual_procs = None ->
   set_status k d w = (Returned tt, w)).
Proof.
  split.
  - intros e. rewrite set_status_run.
    destruct (d !! names.total_num_virtual_procs) as [v|] eqn:Hv.
    + rewrite (set_status_requested_vps _ _ _ _ Hv). cbv zeta.
      destruct (_ || _).
      { intros [= <-]. split; [reflexivity|]. split; [reflexivity | now eexists]. }
      destruct (_ && _); [discriminate|].
      destruct (set_status_errors _ _ _) as [|r errors]; [discriminate|].
      intros [= <-]. split; [reflexivity|]. split; [right; now eexists|].
      apply set_status_msg_header.
    + rewrite (set_status_requested_no_vps _ _ _ Hv).
      destruct (d !! names.local_num_threads) as [t|] eqn:Ht.
      * destruct (_ && _); [discriminate|].
        destruct (set_status_errors _ _ _) as [|r errors]; [discriminate|].
        intros [= <-]. split; [reflexivity|]. split; [left; now eexists|].
        apply set_status_msg_header.
      * rewrite !Z.eqb_refl. discriminate.
  - intros Ht Hv. rewrite set_status_run, (set_status_requested_no_vps _ _ _ Hv), Ht.
    now rewrite !Z.eqb_refl.
Qed.

(** A call leaves the world alone or commits a thread count that every guard
    lets through. *)
Lemma set_status_outcomes k d w :
  snd (set_status k d w) = w \/
  exists n_threads,
    set_status k d w = (Returned tt, changed_world k n_threads w) /\
    set_status_errors k (vp_manager w) n_threads = [].
Proof.
  rewrite set_status_run.
  destruct (set_status_requested k d (vp_manager w)) as [e | [n_threads n_vps]];
    [now left|].
  destruct (_ && _); [now left|].
  destruct (set_status_errors k (vp_manager w) n_threads) eqn:E; [|now left].
  right. now exists n_threads.
Qed.

(** X4.  A request that passes the decomposition check is a no-op exactly
    when its thread count is the current one: the comparison of the virtual
    process counts (line 128) never decides alone, since a checked virtual
    process count is the product of the thread count and the process
    count. *)
Theorem set_status_acts_iff_threads_differ
    (k : Kernel) (d : Dictionary) (w : World) (n_threads n_vps : Z) :
  Kernel_ok k ->
  set_status_requested k d (vp_manager w) = inr (n_threads, n_vps) ->
  (set_status k d w = (Returned tt, w) <-> n_threads = get_num_threads (vp_manager w)) /\
  (n_vps <> get_num_virtual_processes k (vp_manager w) ->
   n_threads <> get_num_threads (vp_manager w)).
Proof.
  intros Hk Hreq. split.
  - rewrite (set_status_run_threads _ _ _ _ _ Hk Hreq).
    destruct (Z.eqb_spec n_threads (get_num_threads (vp_manager w))) as [Hn | Hn].
    + tauto.
    + split; [|tauto].
      destruct (set_status_errors k (vp_manager w) n_threads); [|discriminate].
      intros [= Hw]. exfalso. apply Hn.
      apply (f_equal (fun x => get_num_threads (vp_manager x))) in Hw. exact Hw.
  - intros Hv Hn. apply Hv.
    exact (set_status_requested_same_threads _ _ _ _ _ Hk Hreq Hn).
Qed.

(** X5.  A call that changes anything returns normally, and the kernel it ran
    in was pristine: no nodes, no user-set delay extrema, nothing simulated,
    no modified model defaults; and the new thread count is above one only
    with structural plasticity off and multithreading compiled in. *)
Theorem set_status_changes_only_pristine (k : Kernel) (d : Dictionary) (w : World) :
  Kernel_ok k ->
  snd (set_status k d w) <> w ->
  fst (set_status k d w) = Returned tt /\
  node_manager_size k = 0 /\
  connection_manager_get_user_set_delay_extrema k = false /\
  simulation_manager_has_been_simulated k = false /\
  model_manager_are_model_defaults_modified k = false /\
  (1 < get_num_threads (vp_manager (snd (set_status k d w))) ->
   sp_manager_is_structural_plasticity_enabled k = false /\
   force_singlethreading_ (vp_manager w) = false).
Proof.
  intros [_ Hsize] Hchg.
  destruct (set_status_outcomes k d w) as [Hw | (n_threads & Hrun & Herr)]; [tauto|].
  rewrite Hrun. cbn [fst snd changed_world vp_manager get_num_threads n_threads_].
  pose proof (set_status_errors_nil _ _ _ Herr) as Hg.
  split; [reflexivity|].
  split.
  { pose proof (Hg guard_nodes_exist) as H. cbn in H. apply Z.ltb_ge in H.
    unfold is_size_t in Hsize. lia. }
  split; [exact (Hg guard_delay_extrema)|].
  split; [exact (Hg guard_simulated)|].
  split; [exact (Hg guard_model_defaults)|].
  intros Hn. apply Z.ltb_lt in Hn.
  pose proof (Hg guard_structural_plasticity) as Hsp.
  pose proof (Hg guard_singlethreading) as Hst.
  cbn in Hsp, Hst. rewrite Hn, andb_true_r in Hsp, Hst. now split.
Qed.

Lemma set_status_keeps_single_thread k d w :
  force_singlethreading_ (vp_manager w) = true \/
  sp_manager_is_structural_plasticity_enabled k = true ->
  get_num_threads (vp_manager w) <= 1 ->
  get_num_threads (vp_manager (snd (set_status k d w))) <= 1.
Proof.
  intros Hlock Hn.
  destruct (set_status_outcomes k d w) as [-> | (n_threads & -> & Herr)]; [exact Hn|].
  cbn [snd changed_world vp_manager get_num_threads n_threads_].
  pose proof (set_status_errors_nil _ _ _ Herr) as Hg.
  pose proof (Hg guard_structural_plasticity) as Hsp.
  pose proof (Hg guard_singlethreading) as Hst. cbn in Hsp, Hst.
  destruct (Z.ltb_spec 1 n_threads); [|assumption].
  rewrite andb_true_r in Hsp, Hst. destruct Hlock; congruence.
Qed.

(** X6.  Built without OpenMP, the manager is single-threaded for good: in
    every reachable state the lockout flag is set and the thread count is at
    most one. *)
Theorem single_threaded_without_openmp (w : World) :
  OPENMP = false ->
  reachable w ->
  force_singlethreading_ (vp_manager w) = true /\
  0 <= get_num_threads (vp_manager w) <= 1.
Proof.
  intros Hbuild Hr.
  assert (Hforce : forall w0, reachable w0 -> force_singlethreading_ (vp_manager w0) = true).
  { intros w0 H0. destruct (reachable_well_formed _ H0) as [_ ->]. now rewrite Hbuild. }
  split; [now apply Hforce|].
  split; [apply (reachable_well_formed _ Hr)|].
  induction Hr as [|c w Hc Hr IH]; [cbn; lia|].
  destruct c as [k [] | b | k d | k d]; cbn [run]; try exact IH.
  - rewrite initialize_run. cbn. lia.
  - apply set_status_keeps_single_thread; [left; now apply Hforce | exact IH].
Qed.

(** X7.  With structural plasticity enabled, [set_status] never takes the
    thread count above one: afterwards the count is what it was, or at most
    one. *)
Theorem set_status_plasticity_keeps_single_thread
    (k : Kernel) (d : Dictionary) (w : World) :
  sp_manager_is_structural_plasticity_enabled k = true ->
  get_num_threads (vp_manager (snd (set_status k d w))) = get_num_threads (vp_manager w) \/
  get_num_threads (vp_manager (snd (set_status k d w))) <= 1.
Proof.
  intros Hsp.
  destruct (set_status_outcomes k d w) as [-> | (n_threads & -> & Herr)]; [now left|].
  right. cbn [snd changed_world vp_manager get_num_threads n_threads_].
  pose proof (set_status_errors_nil _ _ _ Herr guard_structural_plasticity) as Hg.
  cbn in Hg. rewrite Hsp in Hg. cbn in Hg. now apply Z.ltb_ge.
Qed.

(** X8.  The same decomposition can be asked for in three ways: [t] threads,
    [t * P] virtual processes, or both.  The three requests run alike:
    same outcome, same world. *)
Theorem set_status_request_forms_agree
    (k : Kernel) (d1 d2 d3 : Dictionary) (w : World) (t : Z) :
  Kernel_ok k ->
  0 <= t ->
  t * mpi_manager_get_num_processes k < SIZE_MODULUS ->
  d1 !! names.local_num_threads = Some t ->
  d1 !! names.total_num_virtual_procs = None ->
  d2 !! names.local_num_threads = None ->
  d2 !! names.total_num_virtual_procs = Some (t * mpi_manager_get_num_processes k) ->
  d3 !! names.local_num_threads = Some t ->
  d3 !! names.total_num_virtual_procs = Some (t * mpi_manager_get_num_processes k) ->
  set_status k d2 w = set_status k d1 w /\ set_status k d3 w = set_status k d1 w.
Proof.
  intros Hk Ht Hfit H1t H1v H2t H2v H3t H3v.
  pose proof Hk as [HP _].
  set (P := mpi_manager_get_num_processes k) in *.
  assert (Htt : to_size_t t = t).
  { apply to_size_t_id. unfold is_size_t, SIZE_MODULUS in *. nia. }
  assert (Htv : to_size_t (t * P) = t * P).
  { apply to_size_t_id. unfold is_size_t, SIZE_MODULUS in *. nia. }
  assert (Hq : t * P / P = t) by (apply Z.div_mul; lia).
  assert (Hm : (t * P) mod P = 0) by (apply Z.mod_mul; lia).
  assert (Hreq1 : set_status_requested k d1 (vp_manager w)
                  = inr (t, get_num_virtual_processes k (vp_manager w))).
  { now rewrite (set_status_requested_no_vps _ _ _ H1v), H1t, Htt. }
  assert (Hreq2 : set_status_requested k d2 (vp_manager w) = inr (t, t * P)).
  { rewrite (set_status_requested_vps _ _ _ _ H2v). cbv zeta. fold P.
    now rewrite H2t, Htv, Hq, Hm, Z.eqb_refl. }
  assert (Hreq3 : set_status_requested k d3 (vp_manager w) = inr (t, t * P)).
  { rewrite (set_status_requested_vps _ _ _ _ H3v). cbv zeta. fold P.
    now rewrite H3t, Htt, Htv, Hq, Hm, Z.eqb_refl. }
  rewrite (set_status_run_threads _ _ _ _ _ Hk Hreq1).
  rewrite (set_status_run_threads _ _ _ _ _ Hk Hreq2).
  rewrite (set_status_run_threads _ _ _ _ _ Hk Hreq3).
  now split.
Qed.

(** ** Further properties of [initialize], [get_OMP_NUM_THREADS] and the
    error vector *)

(** X9.  A reset brings the manager of any reachable state back to the state
    the constructor makes: one thread, hence as many virtual processes as
    there are processes; and it never fails. *)
Theorem initialize_restores_constructed (k : Kernel) (w : World) :
  Kernel_ok k ->
  reachable w ->
  fst (initialize k true w) = Returned tt /\
  vp_manager (snd (initialize k true w)) = VPManager_ctor /\
  get_num_threads (vp_manager (snd (initialize k true w))) = 1 /\
  get_num_virtual_processes k (vp_manager (snd (initialize k true w)))
    = mpi_manager_get_num_processes k.
Proof.
  intros [HP _] Hr. destruct (reachable_well_formed _ Hr) as [_ Hf].
  rewrite initialize_run. cbn [fst snd vp_manager].
  split; [reflexivity|]. split.
  - unfold VPManager_ctor. rewrite Hf. now destruct OPENMP.
  - split; [reflexivity|].
    unfold get_num_virtual_processes. cbn [get_num_threads n_threads_].
    rewrite Z.mul_1_l. apply to_size_t_id. unfold is_size_t. lia.
Qed.

(** X10.  Without [OMP_NUM_THREADS] in the environment the hint is zero and
    neither [initialize] nor [set_status] writes a log line. *)
Theorem no_OMP_NUM_THREADS_no_log (k : Kernel) :
  environ k !! "OMP_NUM_THREADS"%string = None ->
  get_OMP_NUM_THREADS k = 0 /\
  (forall reset_kernel w,
     log_lines (events (snd (initialize k reset_kernel w))) = log_lines (events w)) /\
  (forall d w,
     log_lines (events (snd (set_status k d w))) = log_lines (events w)).
Proof.
  intros Henv.
  assert (Hhint : get_OMP_NUM_THREADS k = 0) by (unfold get_OMP_NUM_THREADS; now rewrite Henv).
  split; [exact Hhint|]. split.
  - intros [] w; [|reflexivity].
    rewrite initialize_run. cbn [snd events].
    rewrite !log_lines_app, !log_lines_omp_calls by (repeat constructor).
    rewrite Hhint. cbn. now rewrite app_nil_r.
  - intros d w.
    destruct (set_status_outcomes k d w) as [-> | (n_threads & -> & _)]; [reflexivity|].
    cbn [snd]. rewrite log_lines_changed_world. unfold hint_warning.
    rewrite Hhint. cbn. now rewrite app_nil_r.
Qed.

Lemma guard_reason_inj g g' : guard_reason g = guard_reason g' -> g = g'.
Proof. destruct g, g'; cbn; intros H; first [reflexivity | discriminate H]. Qed.

(** X11.  The error vector reports the failing guards and nothing else: the
    reason of a guard is in it exactly when the guard fails, no reason is in
    it twice, and the reasons stand in the order of the checks. *)
Theorem set_status_errors_exact (k : Kernel) (vp : VPManager) (n_threads : Z) :
  (forall g, In (guard_reason g) (set_status_errors k vp n_threads)
             <-> guard_fails k vp n_threads g = true) /\
  (forall r, In r (set_status_errors k vp n_threads) -> exists g, r = guard_reason g) /\
  List.NoDup (set_status_errors k vp n_threads) /\
  sublist (set_status_errors k vp n_threads) (map guard_reason all_guards).
Proof.
  split; [|split; [|split]].
  - intros g. rewrite set_status_errors_guards, in_map_iff. split.
    + intros (g' & Heq & Hin). apply guard_reason_inj in Heq. subst g'.
      now apply List.filter_In in Hin.
    + intros Hg. exists g. split; [reflexivity|].
      apply List.filter_In. split; [apply guard_in_all | exact Hg].
  - intros r Hin. rewrite set_status_errors_guards in Hin.
    apply in_map_iff in Hin. destruct Hin as (g & <- & _). now exists g.
  - unfold set_status_errors, push_back_if.
    destruct (0 <? node_manager_size k),
      (connection_manager_get_user_set_delay_extrema k),
      (simulation_manager_has_been_simulated k),
      (model_manager_are_model_defaults_modified k),
      (sp_manager_is_structural_plasticity_enabled k),
      (force_singlethreading_ vp), (1 <? n_threads); cbn;
      repeat (constructor; [cbn; intuition discriminate|]); constructor.
  - unfold set_status_errors, all_guards, push_back_if.
    destruct (0 <? node_manager_size k),
      (connection_manager_get_user_set_delay_extrema k),
      (simulation_manager_has_been_simulated k),
      (model_manager_are_model_defaults_modified k),
      (sp_manager_is_structural_plasticity_enabled k),
      (force_singlethreading_ vp), (1 <? n_threads); cbn; repeat constructor.
Qed.

(** X12.  The dictionary [get_status] fills, whatever it held before, is a
    request [set_status] takes as no change, whatever the guards say, in every
    reachable state whose virtual process count is the product of the
    integers. *)
Theorem get_status_then_set_status (k : Kernel) (d d' : Dictionary) (w : World) :
  Kernel_ok k ->
  reachable w ->
  get_num_threads (vp_manager w) * mpi_manager_get_num_processes k < SIZE_MODULUS ->
  fst (get_status k d w) = Returned d' ->
  set_status k d' w = (Returned tt, w).
Proof.
  intros Hk Hr Hfit [= <-]. pose proof Hk as [HP _].
  destruct (reachable_well_formed _ Hr) as [Hn _].
  set (n := get_num_threads (vp_manager w)) in *.
  set (P := mpi_manager_get_num_processes k) in *.
  set (vps := get_num_virtual_processes k (vp_manager w)).
  change (n_threads_ (vp_manager w)) with n in Hn.
  assert (Hvps : vps = n * P).
  { unfold vps, get_num_virtual_processes. fold n P. apply to_size_t_id.
    unfold is_size_t, SIZE_MODULUS in *. nia. }
  set (dd := def (def d names.local_num_threads n) names.total_num_virtual_procs vps).
  assert (Hv : dd !! names.total_num_virtual_procs = Some (to_long vps))
    by apply lookup_insert_eq.
  assert (Ht : dd !! names.local_num_threads = Some (to_long n)).
  { unfold dd, def. rewrite lookup_insert_ne by discriminate. apply lookup_insert_eq. }
  assert (Hreq : set_status_requested k dd (vp_manager w) = inr (n, vps)).
  { rewrite (set_status_requested_vps _ _ _ _ Hv). cbv zeta. fold P. rewrite Ht.
    rewrite !to_size_t_to_long, (to_size_t_id n Hn), (to_size_t_id vps (to_size_t_range _)).
    assert (Hq : vps / P = n) by (rewrite Hvps; apply Z.div_mul; lia).
    assert (Hm : vps mod P = 0) by (rewrite Hvps; apply Z.mod_mul; lia).
    now rewrite Hq, Hm, Z.eqb_refl. }
  rewrite (set_status_run_threads _ _ _ _ _ Hk Hreq). fold n. now rewrite Z.eqb_refl.
Qed.

Lemma to_int_range z : - 2 ^ 31 <= to_int z < 2 ^ 31.
Proof.
  unfold to_int. unfold INT_MODULUS. cbv zeta.
  pose proof (Z.mod_pos_bound z (2 ^ 32) ltac:(lia)).
  destruct (Z.ltb_spec (z mod 2 ^ 32) (2 ^ 31)); lia.
Qed.

Lemma atoi_range s : - 2 ^ 31 <= atoi s < 2 ^ 31.
Proof. apply to_int_range. Qed.

(** X13.  The hint is a [size_t]: a value of [OMP_NUM_THREADS] that [atoi]
    reads as a negative [int] comes out as 2^64 plus that value, counts as
    set, and a reset logs the note about it. *)
Theorem negative_OMP_NUM_THREADS_is_logged (k : Kernel) (s : string) :
  environ k !! "OMP_NUM_THREADS"%string = Some s ->
  atoi s < 0 ->
  get_OMP_NUM_THREADS k = SIZE_MODULUS + atoi s /\
  1 < get_OMP_NUM_THREADS k /\
  forall w,
    log_lines (events (snd (initialize k true w))) =
    log_lines (events w) ++ [LOG M_INFO "VPManager::initialize()" OMP_NUM_THREADS_ignored].
Proof.
  intros Henv Hneg. pose proof (atoi_range s) as Hr.
  assert (Hhint : get_OMP_NUM_THREADS k = SIZE_MODULUS + atoi s).
  { unfold get_OMP_NUM_THREADS. rewrite Henv. unfold to_size_t, SIZE_MODULUS.
    symmetry. apply Z.mod_unique with (q := -1); lia. }
  assert (Hgt : 1 < get_OMP_NUM_THREADS k) by (rewrite Hhint; unfold SIZE_MODULUS; lia).
  split; [exact Hhint|]. split; [exact Hgt|].
  intros w. rewrite initialize_run. cbn [snd events].
  rewrite !log_lines_app, !log_lines_omp_calls by (repeat constructor).
  apply Z.ltb_lt in Hgt. rewrite Hgt. cbn. now rewrite ?app_nil_r.
Qed.

(** X14.  In a pristine kernel a request that passes the decomposition check
    goes through: the call returns and the stored thread count is the
    requested one, provided a count above one meets neither structural
    plasticity nor the single-threading lockout. *)
Theorem set_status_succeeds_when_pristine
    (k : Kernel) (d : Dictionary) (w : World) (n_threads n_vps : Z) :
  set_status_requested k d (vp_manager w) = inr (n_threads, n_vps) ->
  node_manager_size k = 0 ->
  connection_manager_get_user_set_delay_extrema k = false ->
  simulation_manager_has_been_simulated k = false ->
  model_manager_are_model_defaults_modified k = false ->
  (1 < n_threads ->
   sp_manager_is_structural_plasticity_enabled k = false /\
   force_singlethreading_ (vp_manager w) = false) ->
  fst (set_status k d w) = Returned tt /\
  get_num_threads (vp_manager (snd (set_status k d w))) = n_threads.
Proof.
  intros Hreq Hnodes Hdelay Hsim Hmod Hmulti.
  assert (Herr : set_status_errors k (vp_manager w) n_threads = []).
  { unfold set_status_errors, push_back_if. rewrite Hnodes, Hdelay, Hsim, Hmod. cbn.
    destruct (Z.ltb_spec 1 n_threads) as [Hn|].
    - destruct (Hmulti Hn) as [-> ->]. reflexivity.
    - now rewrite !andb_false_r. }
  rewrite set_status_run, Hreq, Herr.
  destruct (Z.eqb_spec n_threads (get_num_threads (vp_manager w))) as [Hn|];
    cbn [andb]; [|now split].
  destruct (n_vps =? get_num_virtual_processes k (vp_manager w)); now split.
Qed.

End VPManager.

(** ** The properties at concrete inputs *)

Lemma pristine_kernel_ok P env : 1 <= P < SIZE_MODULUS -> Kernel_ok (pristine_kernel P env).
Proof. intros H. split; [exact H | unfold is_size_t, SIZE_MODULUS; cbn; lia]. Qed.

Lemma busy_kernel_ok P : 1 <= P < SIZE_MODULUS -> Kernel_ok (busy_kernel P).
Proof. intros H. split; [exact H | unfold is_size_t, SIZE_MODULUS; cbn; lia]. Qed.

(** Two processes, three threads each: six virtual processes, and
    [get_status] says so. *)
Lemma get_status_reports_counts_witness :
  let k := pristine_kernel 2 ∅ in
  let w := run true (call_set_status k {[ names.local_num_threads := 3 ]}) (initial_world true) in
  get_num_threads (vp_manager w) = 3 /\
  get_num_virtual_processes k (vp_manager w) = 3 * 2 /\
  get_status k ∅ w =
    (Returned (<[ names.total_num_virtual_procs := 6 ]>
                 (<[ names.local_num_threads := 3 ]> ∅)), w).
Proof.
  intros k w.
  assert (Hk : Kernel_ok k) by (apply pristine_kernel_ok; unfold SIZE_MODULUS; lia).
  assert (Hr : reachable true w) by (apply reachable_call; [exact Hk | apply reachable_ctor]).
  destruct (get_status_reports_counts true k ∅ w Hk Hr)
    as (_ & _ & Hexact & Hget & _ & _ & _ & _).
  split; [reflexivity|].
  split; [apply Hexact; reflexivity|]. rewrite Hget. reflexivity.
Defined.

(** A request for 2^62 threads on four processes is accepted in a pristine
    kernel; in the state it leaves the product of the two counts is 2^64 and
    the virtual process count is 0, and that is what [get_status] reports. *)
Lemma vp_count_wraps_around :
  let k := pristine_kernel 4 ∅ in
  let d : Dictionary := <[ names.local_num_threads := 2 ^ 62 ]> ∅ in
  let w := run true (call_set_status k d) (initial_world true) in
  reachable true w /\
  get_num_threads (vp_manager w) = 2 ^ 62 /\
  get_num_threads (vp_manager w) * mpi_manager_get_num_processes k = 2 ^ 64 /\
  get_num_virtual_processes k (vp_manager w) = 0 /\
  get_status k ∅ w =
    (Returned (<[ names.total_num_virtual_procs := 0 ]>
                 (<[ names.local_num_threads := 2 ^ 62 ]> ∅)), w).
Proof.
  cbv zeta. split; [|repeat split; reflexivity].
  apply reachable_call; [|apply reachable_ctor].
  apply pristine_kernel_ok. unfold SIZE_MODULUS. lia.
Qed.

(** Nodes exist and model defaults were modified: both reasons are in the one
    message, and nothing changes. *)
Lemma set_status_locked_reports_all_guards_witness :
  let d : Dictionary := {[ names.local_num_threads := 2 ]} in
  set_status true (busy_kernel 1) d (initial_world true) =
  (Thrown (KernelException
     "Number of threads unchanged. Error conditions: Nodes exist. Model defaults were modified."),
   initial_world true).
Proof.
  intros d.
  destruct (set_status_locked_reports_all_guards true (busy_kernel 1) d (initial_world true) 2 1)
    as (msg & Hrun & Hmsg & _).
  - reflexivity.
  - left. cbn. lia.
  - exists guard_nodes_exist. reflexivity.
  - rewrite Hrun, Hmsg. reflexivity.
Defined.



(** Asking for the one thread and the two virtual processes there are, in a
    kernel where nodes exist. *)
Lemma set_status_current_is_noop_witness :
  let d : Dictionary :=
    <[ names.local_num_threads := 1 ]> {[ names.total_num_virtual_procs := 2 ]} in
  set_status true (busy_kernel 2) d (initial_world true) = (Returned tt, initial_world true).
Proof.
  intros d.
  apply (set_status_current_is_noop true (busy_kernel 2) d (initial_world true)).
  - apply busy_kernel_ok. unfold SIZE_MODULUS. lia.
  - unfold is_size_t, SIZE_MODULUS. cbn. lia.
  - right. reflexivity.
  - right. split; [reflexivity | cbn; lia].
Defined.

(** In the reachable state with 2^62 threads on four processes the current
    virtual process count is 0; asking for it, in a kernel where nodes exist,
    is taken as a change to zero threads and throws. *)
Lemma set_status_current_vps_locked :
  let k0 := pristine_kernel 4 ∅ in
  let d0 : Dictionary := <[ names.local_num_threads := 2 ^ 62 ]> ∅ in
  let w := run true (call_set_status k0 d0) (initial_world true) in
  let k := busy_kernel 4 in
  let d : Dictionary := <[ names.total_num_virtual_procs := 0 ]> ∅ in
  reachable true w /\
  get_status k ∅ w =
    (Returned (<[ names.total_num_virtual_procs := 0 ]>
                 (<[ names.local_num_threads := 2 ^ 62 ]> ∅)), w) /\
  set_status true k d w =
    (Thrown (KernelException
       "Number of threads unchanged. Error conditions: Nodes exist. Model defaults were modified."),
     w).
Proof.
  cbv zeta. split; [|split; reflexivity].
  apply reachable_call; [|apply reachable_ctor].
  apply pristine_kernel_ok. unfold SIZE_MODULUS. lia.
Qed.



(** Structural plasticity enabled, two threads requested. *)
Lemma set_status_plasticity_conflict_witness :
  let d : Dictionary := {[ names.local_num_threads := 2 ]} in
  exists msg,
    set_status true (plastic_kernel 1) d (initial_world true)
    = (Thrown (KernelException msg), initial_world true) /\
    contains msg "Structural plasticity enabled: multithreading cannot be enabled".
Proof.
  intros d.
  destruct (set_status_plasticity_conflict true (plastic_kernel 1) d (initial_world true) 2 1)
    as (msg & Hrun & _ & Hmsg).
  - reflexivity.
  - left. cbn. lia.
  - reflexivity.
  - lia.
  - exists msg. split; [exact Hrun | exact Hmsg].
Defined.

(** A request for zero threads in a pristine kernel is accepted: the call
    returns and the reachable state it leaves has thread count 0. *)
Lemma set_status_zero_threads_accepted :
  let k := pristine_kernel 1 ∅ in
  let d : Dictionary := {[ names.local_num_threads := 0 ]} in
  set_status true k d (initial_world true) =
    (Returned tt,
     {| vp_manager := {| force_singlethreading_ := false; n_threads_ := 0 |};
        events := [omp_set_num_threads 0; threads_changed 0] |}) /\
  reachable true (run true (call_set_status k d) (initial_world true)) /\
  get_num_threads (vp_manager (run true (call_set_status k d) (initial_world true))) = 0.
Proof.
  cbv zeta. split; [reflexivity|]. split; [|reflexivity].
  apply reachable_call; [|apply reachable_ctor].
  apply pristine_kernel_ok. unfold SIZE_MODULUS. lia.
Qed.

(** Three threads requested in a pristine kernel. *)
Lemma thread_count_positive_without_zero_request_witness :
  let k := pristine_kernel 1 ∅ in
  let d : Dictionary := {[ names.local_num_threads := 3 ]} in
  1 <= get_num_threads (vp_manager (run true (call_set_status k d) (initial_world true)))
    < SIZE_MODULUS.
Proof.
  intros k d.
  apply (thread_count_positive_without_zero_request true).
  apply reachable_call; [|apply reachable_ctor].
  split; [apply pristine_kernel_ok; unfold SIZE_MODULUS; lia|].
  split; [split|].
  - intros t Ht. vm_compute in Ht. injection Ht as <-. unfold is_long, LONG_MIN, LONG_MAX. lia.
  - intros v Hv. vm_compute in Hv. discriminate Hv.
  - intros [H | [H _]]; vm_compute in H; discriminate H.
Defined.

(** With [OMP_NUM_THREADS=1] a reset logs nothing, and with
    [OMP_NUM_THREADS=2] a change to two threads logs nothing, although the
    hint is not zero. *)
Lemma OMP_NUM_THREADS_hint_not_logged :
  let k1 := pristine_kernel 1 {[ "OMP_NUM_THREADS"%string := "1"%string ]} in
  let k2 := pristine_kernel 1 {[ "OMP_NUM_THREADS"%string := "2"%string ]} in
  let d : Dictionary := {[ names.local_num_threads := 2 ]} in
  get_OMP_NUM_THREADS k1 = 1 /\
  log_lines (events (snd (initialize true k1 true (initial_world true)))) = [] /\
  get_OMP_NUM_THREADS k2 = 2 /\
  set_status true k2 d (initial_world true) =
    (Returned tt,
     {| vp_manager := {| force_singlethreading_ := false; n_threads_ := 2 |};
        events := [omp_set_num_threads 2; threads_changed 2] |}) /\
  log_lines (events (snd (set_status true k2 d (initial_world true)))) = [].
Proof. cbv zeta. repeat split; reflexivity. Qed.

(** Five threads requested and no virtual process count. *)
Lemma set_status_without_vps_witness :
  let d : Dictionary := {[ names.local_num_threads := 5 ]} in
  let k := pristine_kernel 3 ∅ in
  set_status_requested k d (vp_manager (initial_world true)) = inr (5, 3) /\
  get_num_threads (vp_manager (snd (set_status true k d (initial_world true)))) = 5.
Proof.
  intros d k.
  destruct (set_status_without_vps true k d (initial_world true)) as (Hreq & _ & Hrun).
  - reflexivity.
  - split; [exact Hreq|]. rewrite Hrun. reflexivity.
Defined.

(** ** The further properties at concrete inputs *)

Lemma pristine_kernel_2_ok : Kernel_ok (pristine_kernel 2 ∅).
Proof. apply pristine_kernel_ok. unfold SIZE_MODULUS. lia. Qed.

Lemma three_threads_long_request :
  long_request (<[ names.local_num_threads := 3 ]> ∅).
Proof.
  split.
  - intros t Ht. vm_compute in Ht. injection Ht as <-.
    unfold is_long, LONG_MIN, LONG_MAX. lia.
  - intros v Hv. vm_compute in Hv. discriminate Hv.
Qed.

Lemma set_status_then_get_status_witness :
  let k := pristine_kernel 2 ∅ in
  let d : Dictionary := <[ names.local_num_threads := 3 ]> ∅ in
  let w' := snd (set_status true k d (initial_world true)) in
  exists d',
    get_status k ∅ w' = (Returned d', w') /\
    d' !! names.local_num_threads = Some 3.
Proof.
  intros k d w'.
  destruct (set_status_then_get_status true k d ∅ (initial_world true) w')
    as (d' & Hget & Ht & _).
  - exact pristine_kernel_2_ok.
  - exact three_threads_long_request.
  - reflexivity.
  - exists d'. split; [exact Hget | apply Ht; reflexivity].
Defined.

Lemma set_status_again_is_noop_witness :
  let k := pristine_kernel 2 ∅ in
  let d : Dictionary := <[ names.local_num_threads := 3 ]> ∅ in
  let w' := snd (set_status true k d (initial_world true)) in
  set_status true k d w' = (Returned tt, w').
Proof.
  intros k d w'.
  apply (set_status_again_is_noop true k d (initial_world true) w').
  - exact pristine_kernel_2_ok.
  - reflexivity.
Defined.

Lemma set_status_acts_iff_threads_differ_witness :
  let d : Dictionary := <[ names.total_num_virtual_procs := 2 ]> ∅ in
  set_status true (busy_kernel 2) d (initial_world true) = (Returned tt, initial_world true).
Proof.
  intros d.
  destruct (set_status_acts_iff_threads_differ true (busy_kernel 2) d (initial_world true) 1 2)
    as [[_ Hnoop] _].
  - apply busy_kernel_ok. unfold SIZE_MODULUS. lia.
  - reflexivity.
  - apply Hnoop. reflexivity.
Defined.

Lemma set_status_changes_only_pristine_witness :
  let k := pristine_kernel 2 ∅ in
  let d : Dictionary := <[ names.local_num_threads := 3 ]> ∅ in
  fst (set_status true k d (initial_world true)) = Returned tt /\
  node_manager_size k = 0.
Proof.
  intros k d.
  destruct (set_status_changes_only_pristine true k d (initial_world true))
    as (Hret & Hnodes & _).
  - exact pristine_kernel_2_ok.
  - intros H. apply (f_equal (fun x => n_threads_ (vp_manager x))) in H.
    vm_compute in H. discriminate H.
  - split; [exact Hret | exact Hnodes].
Defined.

Lemma single_threaded_without_openmp_witness :
  let k := pristine_kernel 1 ∅ in
  let d : Dictionary := <[ names.local_num_threads := 4 ]> ∅ in
  let w := run false (call_set_status k d) (initial_world false) in
  force_singlethreading_ (vp_manager w) = true /\
  0 <= get_num_threads (vp_manager w) <= 1.
Proof.
  intros k d w.
  apply (single_threaded_without_openmp false w eq_refl).
  apply reachable_call; [|apply reachable_ctor].
  apply pristine_kernel_ok. unfold SIZE_MODULUS. lia.
Defined.

Lemma set_status_plasticity_keeps_single_thread_witness :
  let d : Dictionary := <[ names.local_num_threads := 2 ]> ∅ in
  let w' := snd (set_status true (plastic_kernel 1) d (initial_world true)) in
  get_num_threads (vp_manager w') = get_num_threads (vp_manager (initial_world true)) \/
  get_num_threads (vp_manager w') <= 1.
Proof.
  intros d w'.
  apply (set_status_plasticity_keeps_single_thread true (plastic_kernel 1) d (initial_world true)).
  reflexivity.
Defined.

Lemma set_status_request_forms_agree_witness :
  let k := pristine_kernel 2 ∅ in
  let d1 : Dictionary := <[ names.local_num_threads := 3 ]> ∅ in
  let d2 : Dictionary := <[ names.total_num_virtual_procs := 6 ]> ∅ in
  let d3 : Dictionary := <[ names.local_num_threads := 3 ]> d2 in
  set_status true k d2 (initial_world true) = set_status true k d1 (initial_world true) /\
  set_status true k d3 (initial_world true) = set_status true k d1 (initial_world true).
Proof.
  intros k d1 d2 d3.
  apply (set_status_request_forms_agree true k d1 d2 d3 (initial_world true) 3).
  - exact pristine_kernel_2_ok.
  - lia.
  - unfold SIZE_MODULUS. cbn. lia.
  - reflexivity.
  - reflexivity.
  - reflexivity.
  - reflexivity.
  - reflexivity.
  - reflexivity.
Defined.

Lemma initialize_restores_constructed_witness :
  let k := pristine_kernel 2 ∅ in
  let d : Dictionary := <[ names.local_num_threads := 3 ]> ∅ in
  let w := run true (call_set_status k d) (initial_world true) in
  get_num_threads (vp_manager w) = 3 /\
  vp_manager (snd (initialize true k true w)) = VPManager_ctor true /\
  get_num_virtual_processes k (vp_manager (snd (initialize true k true w))) = 2.
Proof.
  intros k d w.
  destruct (initialize_restores_constructed true k w) as (_ & Hctor & _ & Hvps).
  - exact pristine_kernel_2_ok.
  - apply reachable_call; [exact pristine_kernel_2_ok | apply reachable_ctor].
  - split; [reflexivity|]. split; [exact Hctor | exact Hvps].
Defined.

Lemma no_OMP_NUM_THREADS_no_log_witness :
  let k := pristine_kernel 1 ∅ in
  let d : Dictionary := <[ names.local_num_threads := 2 ]> ∅ in
  get_OMP_NUM_THREADS k = 0 /\
  log_lines (events (snd (set_status true k d (initial_world true)))) = [].
Proof.
  intros k d.
  destruct (no_OMP_NUM_THREADS_no_log true k) as (Hhint & _ & Hset).
  - reflexivity.
  - split; [exact Hhint | exact (Hset d (initial_world true))].
Defined.

Lemma get_status_then_set_status_witness :
  let k := busy_kernel 2 in
  let d' : Dictionary :=
    <[ names.total_num_virtual_procs := 2 ]> (<[ names.local_num_threads := 1 ]> ∅) in
  set_status true k d' (initial_world true) = (Returned tt, initial_world true).
Proof.
  intros k d'.
  apply (get_status_then_set_status true k ∅ d' (initial_world true)).
  - apply busy_kernel_ok. unfold SIZE_MODULUS. lia.
  - apply reachable_ctor.
  - unfold SIZE_MODULUS. cbn. lia.
  - reflexivity.
Defined.

Lemma negative_OMP_NUM_THREADS_is_logged_witness :
  let k := pristine_kernel 1 {[ "OMP_NUM_THREADS"%string := "-3"%string ]} in
  get_OMP_NUM_THREADS k = SIZE_MODULUS - 3 /\
  log_lines (events (snd (initialize true k true (initial_world true)))) =
    [LOG M_INFO "VPManager::initialize()" OMP_NUM_THREADS_ignored].
Proof.
  intros k.
  destruct (negative_OMP_NUM_THREADS_is_logged true k "-3") as (Hhint & _ & Hlog).
  - reflexivity.
  - vm_compute. reflexivity.
  - split; [exact Hhint | exact (Hlog (initial_world true))].
Defined.

Lemma set_status_succeeds_when_pristine_witness :
  let k := pristine_kernel 1 ∅ in
  let d : Dictionary := <[ names.local_num_threads := 4 ]> ∅ in
  fst (set_status true k d (initial_world true)) = Returned tt /\
  get_num_threads (vp_manager (snd (set_status true k d (initial_world true)))) = 4.
Proof.
  intros k d.
  apply (set_status_succeeds_when_pristine true k d (initial_world true) 4 1).
  - reflexivity.
  - reflexivity.
  - reflexivity.
  - reflexivity.
  - reflexivity.
  - intros _. split; reflexivity.
Defined.
